(** * Wikidata detail page: a shallow embedding of [elementi/js/wikidata-api.js]

    The script has two classes.  [WikidataAPI] wraps two read-only
    endpoints and offers extraction helpers on the documents they return;
    [ProjectDetailApp] reads three query parameters, drives the lookups and
    writes the outcome into page elements found by id.

    Modelling choices, all read off the source:
    - a JavaScript value that can reach the script is a parsed JSON value,
      [undefined], or a member that a parsed value inherits from its
      prototype ([VNative]: a built-in function, or the prototype object
      under [__proto__]); objects are association lists of their own
      members; a member that is not an own member is looked up among the
      names of the prototype chain (ECMAScript 2024 with its Annex B);
    - numbers are kept as their sign and their decimal rendering, which is
      all the script ever asks of a number (truthiness and interpolation);
    - strings are kept in UTF-8; their length and their indexed members
      count UTF-16 code units, the two halves of a character outside the
      basic plane each in its three-byte form;
    - a thrown [TypeError] is the [Throw] outcome of a result type;
    - the page is a map from element ids to cells, one for each property
      the script assigns, that hold the value last assigned by the script
      or the one the page came with; [document.getElementById] of an
      unknown id is [null].  Which element lies inside which is not part of
      the model, nor is what the browser makes of assigned markup;
    - the network is an oracle asked once per request; each call of [fetch]
      in a run has its own place in the program (a [site]), so that two
      requests for the same address may be answered differently; a request
      is kept as what the address is built from (search term and language,
      or entity id);
    - the entity endpoint answers with any parsed body or fails; the search
      endpoint fails, or answers with a body whose [search] member is
      missing or is a list of hits;
    - [displayArtistData] and [displayWorkData] are [async] functions whose
      promise the caller drops.  Such a call runs up to its first [await];
      a rejection there is recorded as unhandled at once and does not reach
      the caller.  Otherwise the task is left pending: the caller goes on,
      and what the task asks, logs and assigns when it runs on is kept with
      the task ([outcome]), apart from the log of the flow that started it.
      No order is fixed between the events of a pending task and those of
      the flow; the page once the pending tasks have finished is
      [settled_page]. *)

From Stdlib Require Import String Ascii List Bool Arith NArith Lia.
From Stdlib Require Import DecimalString.
Import ListNotations.
Set Warnings "-register-all".
Open Scope list_scope.
Open Scope string_scope.

(** ** JavaScript values *)

Inductive numsign := NegNum | ZeroNum | PosNum.

Inductive value :=
| VUndef
| VNull
| VBool (b : bool)
| VNum (sign : numsign) (text : string)
| VStr (s : string)
| VArr (items : list value)
| VObj (members : list (string * value))
| VNative.

Inductive exn := TypeError.

Inductive res (A : Type) :=
| Ok (a : A)
| Throw (e : exn).
Arguments Ok {A} a.
Arguments Throw {A} e.

Definition res_bind {A B} (r : res A) (k : A -> res B) : res B :=
  match r with
  | Ok a => k a
  | Throw e => Throw e
  end.

Module ResNotations.
Notation "x <-? r ;; k" := (res_bind r (fun x => k))
  (at level 61, r at next level, right associativity).
End ResNotations.
Import ResNotations.

Fixpoint lookup (k : string) (o : list (string * value)) : option value :=
  match o with
  | [] => None
  | (k', v) :: rest => if String.eqb k k' then Some v else lookup k rest
  end.

Definition nat_to_string (n : nat) : string :=
  NilZero.string_of_uint (Nat.to_uint n).

Definition is_digit (c : ascii) : bool :=
  let n := nat_of_ascii c in ((48 <=? n) && (n <=? 57))%nat.

Definition digit_val (c : ascii) : nat := (nat_of_ascii c - 48)%nat.

Fixpoint digits_value (s : string) (acc : nat) : option nat :=
  match s with
  | EmptyString => Some acc
  | String c r => if is_digit c then digits_value r (10 * acc + digit_val c)%nat else None
  end.

(** An array index as a property name: ["0"], or digits without a leading
    zero. *)
Definition index_of_key (k : string) : option nat :=
  match k with
  | EmptyString => None
  | String c EmptyString => if is_digit c then Some (digit_val c) else None
  | String c _ => if Ascii.eqb c "0" then None else digits_value k 0%nat
  end.

Definition number_of_nat (n : nat) : value :=
  VNum (match n with O => ZeroNum | S _ => PosNum end) (nat_to_string n).

(** The UTF-16 code units of a string kept in UTF-8.  A byte and the
    continuation bytes after it make one sequence; a sequence of four bytes
    is a character outside the basic plane and gives two code units, the
    halves of its surrogate pair, each in its three-byte form. *)
Definition is_continuation (c : ascii) : bool :=
  let n := N_of_ascii c in ((128 <=? n) && (n <? 192))%N.

Fixpoint utf8_sequences (s : string) : list string :=
  match s with
  | EmptyString => []
  | String c r =>
      let starts_inside := match r with
                           | String d _ => is_continuation d
                           | EmptyString => false
                           end in
      match utf8_sequences r with
      | g :: gs =>
          if starts_inside then String c g :: gs
          else String c EmptyString :: g :: gs
      | [] => [String c EmptyString]
      end
  end.

Definition three_bytes (u : N) : string :=
  String (ascii_of_N (224 + u / 4096))
    (String (ascii_of_N (128 + (u / 64) mod 64))
       (String (ascii_of_N (128 + u mod 64)) EmptyString)).

Definition code_units (g : string) : list string :=
  match g with
  | String b0 (String b1 (String b2 (String b3 EmptyString))) =>
      let cp := ((N_of_ascii b0 mod 8) * 262144 + (N_of_ascii b1 mod 64) * 4096
                 + (N_of_ascii b2 mod 64) * 64 + N_of_ascii b3 mod 64)%N in
      let v := (cp - 65536)%N in
      [three_bytes (55296 + v / 1024); three_bytes (56320 + v mod 1024)]
  | _ => [g]
  end.

Definition utf16_units (s : string) : list string :=
  flat_map code_units (utf8_sequences s).

(** The names of the members of the built-in prototypes. *)
Definition object_prototype : list string :=
  ["constructor"; "__defineGetter__"; "__defineSetter__"; "hasOwnProperty";
   "__lookupGetter__"; "__lookupSetter__"; "isPrototypeOf"; "propertyIsEnumerable";
   "toString"; "valueOf"; "__proto__"; "toLocaleString"].

Definition array_prototype : list string :=
  ["at"; "concat"; "copyWithin"; "fill"; "find"; "findIndex"; "findLast";
   "findLastIndex"; "lastIndexOf"; "pop"; "push"; "reverse"; "shift"; "unshift";
   "slice"; "sort"; "splice"; "includes"; "indexOf"; "join"; "keys"; "entries";
   "values"; "forEach"; "filter"; "flat"; "flatMap"; "map"; "every"; "some";
   "reduce"; "reduceRight"; "toReversed"; "toSorted"; "toSpliced"; "with"].

Definition string_prototype : list string :=
  ["anchor"; "at"; "big"; "blink"; "bold"; "charAt"; "charCodeAt"; "codePointAt";
   "concat"; "endsWith"; "fontcolor"; "fontsize"; "fixed"; "includes"; "indexOf";
   "isWellFormed"; "italics"; "lastIndexOf"; "link"; "localeCompare"; "match";
   "matchAll"; "normalize"; "padEnd"; "padStart"; "repeat"; "replace"; "replaceAll";
   "search"; "slice"; "small"; "split"; "strike"; "sub"; "substr"; "substring";
   "sup"; "startsWith"; "toWellFormed"; "trim"; "trimStart"; "trimLeft"; "trimEnd";
   "trimRight"; "toLocaleLowerCase"; "toLocaleUpperCase"; "toLowerCase";
   "toUpperCase"].

Definition number_prototype : list string :=
  ["toExponential"; "toFixed"; "toPrecision"].

Definition boolean_prototype : list string := [].

Definition named (names : list string) (k : string) : bool :=
  existsb (String.eqb k) names.

(** A member that is not an own member: found on the prototype chain, which
    ends in [Object.prototype], or [undefined]. *)
Definition inherited_member (prototype : list string) (k : string) : value :=
  if named (prototype ++ object_prototype) k then VNative else VUndef.

(** [v[k]] and [v.k]: reading a member of [null] or [undefined] throws.  Of
    a built-in function or prototype object the script reads only [value],
    [0], [labels], [descriptions] and [claims], which they do not have. *)
Definition get_prop (v : value) (k : string) : res value :=
  match v with
  | VUndef | VNull => Throw TypeError
  | VBool _ => Ok (inherited_member boolean_prototype k)
  | VNum _ _ => Ok (inherited_member number_prototype k)
  | VStr s =>
      if String.eqb k "length" then Ok (number_of_nat (List.length (utf16_units s)))
      else match index_of_key k with
           | Some i => match nth_error (utf16_units s) i with
                       | Some u => Ok (VStr u)
                       | None => Ok VUndef
                       end
           | None => Ok (inherited_member string_prototype k)
           end
  | VArr l =>
      if String.eqb k "length" then Ok (number_of_nat (List.length l))
      else match index_of_key k with
           | Some i => Ok (nth i l VUndef)
           | None => Ok (inherited_member array_prototype k)
           end
  | VObj o => Ok (match lookup k o with
                  | Some x => x
                  | None => inherited_member [] k
                  end)
  | VNative => Ok VUndef
  end.

Definition truthy (v : value) : bool :=
  match v with
  | VUndef | VNull => false
  | VBool b => b
  | VNum ZeroNum _ => false
  | VNum _ _ => true
  | VStr s => negb (String.eqb s "")
  | VArr _ | VObj _ | VNative => true
  end.

(** Interpolation in a template literal, and the conversion of a computed
    member name.  An object is converted by its [toString] member: the
    inherited one gives the fixed text, an own one, which in a parsed value
    is never a function, makes the conversion throw.  An array joins the
    conversions of its items, [null] and [undefined] as the empty string.
    The script never converts a built-in function. *)
Fixpoint to_js_string (v : value) : res string :=
  match v with
  | VUndef => Ok "undefined"
  | VNull => Ok "null"
  | VBool true => Ok "true"
  | VBool false => Ok "false"
  | VNum _ t => Ok t
  | VStr s => Ok s
  | VArr l =>
      let item x := match x with
                    | VUndef | VNull => Ok ""
                    | _ => to_js_string x
                    end in
      (fix join (l : list value) : res string :=
         match l with
         | [] => Ok ""
         | x :: r => match r with
                     | [] => item x
                     | _ :: _ => first <-? item x ;;
                                 others <-? join r ;;
                                 Ok (first ++ "," ++ others)%string
                     end
         end) l
  | VObj o => match lookup "toString" o with
              | Some _ => Throw TypeError
              | None => Ok "[object Object]"
              end
  | VNative => Ok "function () { [native code] }"
  end.

(** ** WikidataAPI: the extraction helpers *)

Module WikidataAPI.

Definition default_language : string := "it".

Definition no_label : string := "Informazione non disponibile".
Definition no_description : string := "Descrizione non disponibile".
Definition no_property : string := "Non specificato".
Definition no_date : string := "Data non disponibile".

(** [entity.labels && entity.labels[language]], then [.value]. *)
Definition getLabel (entity : value) (language : string) : res value :=
  labels <-? get_prop entity "labels" ;;
  if truthy labels then
    l <-? get_prop labels language ;;
    if truthy l then get_prop l "value" else Ok (VStr no_label)
  else Ok (VStr no_label).

Definition getDescription (entity : value) (language : string) : res value :=
  descriptions <-? get_prop entity "descriptions" ;;
  if truthy descriptions then
    d <-? get_prop descriptions language ;;
    if truthy d then get_prop d "value" else Ok (VStr no_description)
  else Ok (VStr no_description).

(** The regular expression [/\+(\d{4})-\d{2}-\d{2}/]: first the pattern at
    the head of a string, then the leftmost place where it applies. *)
Definition match_here (s : string) : option string :=
  match s with
  | String p (String y1 (String y2 (String y3 (String y4
      (String h1 (String m1 (String m2 (String h2 (String d1 (String d2 _)))))))))) =>
      if Ascii.eqb p "+"
         && is_digit y1 && is_digit y2 && is_digit y3 && is_digit y4
         && Ascii.eqb h1 "-" && is_digit m1 && is_digit m2
         && Ascii.eqb h2 "-" && is_digit d1 && is_digit d2
      then Some (String y1 (String y2 (String y3 (String y4 EmptyString))))
      else None
  | _ => None
  end.

Fixpoint regex_search (s : string) : option string :=
  match match_here s with
  | Some y => Some y
  | None => match s with
            | EmptyString => None
            | String _ r => regex_search r
            end
  end.

(** [formatWikidataDate]: a falsy argument gives the fixed text; a string
    goes through [String.prototype.match]; any other truthy value has no
    callable [match] member, and calling it throws. *)
Definition formatWikidataDate (dateString : value) : res value :=
  if negb (truthy dateString) then Ok (VStr no_date)
  else match dateString with
       | VStr s => match regex_search s with
                   | Some year => Ok (VStr year)
                   | None => Ok dateString
                   end
       | _ => Throw TypeError
       end.

End WikidataAPI.

(** ** The page, the console and the network *)

Record element := mkElement {
  textContent : string;
  innerHTML : string;
  display : string;
  href : string;
  disabled : bool
}.

Definition set_textContent (t : string) (e : element) : element :=
  mkElement t (innerHTML e) (display e) (href e) (disabled e).
Definition set_innerHTML (h : string) (e : element) : element :=
  mkElement (textContent e) h (display e) (href e) (disabled e).
Definition set_display (d : string) (e : element) : element :=
  mkElement (textContent e) (innerHTML e) d (href e) (disabled e).
Definition set_href (h : string) (e : element) : element :=
  mkElement (textContent e) (innerHTML e) (display e) h (disabled e).
Definition set_disabled (b : bool) (e : element) : element :=
  mkElement (textContent e) (innerHTML e) (display e) (href e) b.

Definition page := string -> option element.

Definition page_update (id : string) (e : element) (p : page) : page :=
  fun k => if String.eqb k id then Some e else p k.

Inductive flow := Artist | Work.

(** The places of the program where [fetch] is called: the search and the
    entity lookup of each flow, and the label lookup made for one field of
    the display data of a flow. *)
Inductive site :=
| SearchSite (f : flow)
| EntitySite (f : flow)
| LabelSite (f : flow) (field : string).

Inductive request :=
| ReqSearch (term language : string)
| ReqEntity (entityId : string).

(** What the search endpoint can give back to [searchEntities]: a failure
    of [fetch] or of [response.json()] (or a [null] body, whose [.search]
    throws inside the [try]); a body without a [search] list; a body whose
    [search] member is a list of hits. *)
Inductive search_reply :=
| SearchFailed
| SearchNoList
| SearchList (hits : list value).

(** The entity endpoint gives a parsed body, or fails. *)
Record network := mkNetwork {
  search_answer : site -> string -> search_reply;
  entity_answer : site -> string -> option value
}.

(** What a task that nobody awaits does once it runs on: the requests it
    makes and the lines it logs, each in the order of the task; the markup
    it assigns to [innerHTML] of the elements it holds; how it ends. *)
Record outcome := mkOutcome {
  started_by : flow;
  asks : list (site * request);
  logs : list string;
  assigns : list (string * string);
  ends : res unit
}.

(** The page and the logs when a flow has come to its end: the console,
    the requests and the assignment targets of the flow itself, the tasks
    that rejected before they first waited, and the tasks left pending. *)
Record state := mkState {
  dom : page;
  title : string;
  console : list string;
  requests : list (site * request);
  written : list string;
  unhandled : list flow;
  pending : list outcome
}.

Definition M (A : Type) : Type := state -> res A * state.

Definition ret {A} (a : A) : M A := fun st => (Ok a, st).

Definition bind {A B} (m : M A) (k : A -> M B) : M B :=
  fun st => match m st with
            | (Ok a, st') => k a st'
            | (Throw e, st') => (Throw e, st')
            end.

Definition lift {A} (r : res A) : M A := fun st => (r, st).

(** [try { body } catch (error) { handler }] *)
Definition try_catch {A} (body : M A) (handler : exn -> M A) : M A :=
  fun st => match body st with
            | (Ok a, st') => (Ok a, st')
            | (Throw e, st') => handler e st'
            end.

(** A page with empty logs, on which a task runs apart from its caller. *)
Definition apart (p : page) : state := mkState p "" [] [] [] [] [].

(** The innerHTML assignments a task has made, read off the page it ran
    on. *)
Definition innerHTML_of (p : page) (id : string) : list (string * string) :=
  match p id with
  | Some e => [(id, innerHTML e)]
  | None => []
  end.

Definition run_apart (f : flow) (p : page) (task : M unit) : outcome :=
  let '(r, st) := task (apart p) in
  mkOutcome f (requests st) (console st) (flat_map (innerHTML_of (dom st)) (written st)) r.

(** A call of an [async] function of flow [f] whose promise nobody awaits.
    [first] is the part of its body up to the first [await], [task] the
    whole body.  When [first] throws the promise is rejected at the call
    and the rejection stays unhandled; otherwise the task is pending when
    the caller goes on, holding the elements it found on the page of the
    call. *)
Definition detached (f : flow) (first : res unit) (task : M unit) : M unit :=
  fun st => match first with
            | Throw _ =>
                (Ok tt, mkState (dom st) (title st) (console st) (requests st)
                                (written st) (unhandled st ++ [f]) (pending st))
            | Ok _ =>
                (Ok tt, mkState (dom st) (title st) (console st) (requests st)
                                (written st) (unhandled st)
                                (pending st ++ [run_apart f (dom st) task]))
            end.



Module MNotations.
Notation "x <- m ;; k" := (bind m (fun x => k))
  (at level 61, m at next level, right associativity).
Notation "m ;;; k" := (bind m (fun _ => k))
  (at level 61, right associativity).
End MNotations.
Import MNotations.

Definition console_error (msg : string) : M unit :=
  fun st => (Ok tt, mkState (dom st) (title st) (console st ++ [msg]) (requests st)
                            (written st) (unhandled st) (pending st)).

Definition issue (s : site) (r : request) : M unit :=
  fun st => (Ok tt, mkState (dom st) (title st) (console st) (requests st ++ [(s, r)])
                            (written st) (unhandled st) (pending st)).

(** [document.getElementById(id)]: the element, or [null]. *)
Definition getElementById (id : string) : M (option string) :=
  fun st => (Ok (match dom st id with Some _ => Some id | None => None end), st).

(** Assignment to a property of what [getElementById] returned; on [null]
    it throws. *)
Definition assign (target : option string) (upd : element -> element) : M unit :=
  fun st =>
    match target with
    | None => (Throw TypeError, st)
    | Some id =>
        match dom st id with
        | None => (Throw TypeError, st)
        | Some e => (Ok tt, mkState (page_update id (upd e) (dom st)) (title st)
                                    (console st) (requests st)
                                    (written st ++ [id]) (unhandled st) (pending st))
        end
    end.

Definition set_title (t : string) : M unit :=
  fun st => (Ok tt, mkState (dom st) t (console st) (requests st)
                            (written st) (unhandled st) (pending st)).

(** ** WikidataAPI: the two endpoints and the property lookup *)

Module Client.
Import WikidataAPI.

Section WithNetwork.
Variable net : network.

Definition msg_entity : string := "Error fetching Wikidata entity:".
Definition msg_search : string := "Error searching Wikidata:".

(** [getEntity]: the id is written into the address, then one request;
    [data.entities[entityId]], or [null] after logging when anything inside
    the [try] throws, the conversion of the id included. *)
Definition getEntity (s : site) (entityId : value) : M value :=
  match to_js_string entityId with
  | Throw _ => console_error msg_entity ;;; ret VNull
  | Ok key =>
      issue s (ReqEntity key) ;;;
      match entity_answer net s key with
      | None => console_error msg_entity ;;; ret VNull
      | Some data =>
          match (entities <-? get_prop data "entities" ;; get_prop entities key) with
          | Ok entity => ret entity
          | Throw _ => console_error msg_entity ;;; ret VNull
          end
      end
  end.

(** [searchEntities]: one request; [data.search], or [[]] after logging.
    [None] stands for [undefined]. *)
Definition searchEntities (s : site) (searchTerm : string) : M (option (list value)) :=
  issue s (ReqSearch searchTerm default_language) ;;;
  match search_answer net s searchTerm with
  | SearchFailed => console_error msg_search ;;; ret (Some [])
  | SearchNoList => ret None
  | SearchList hits => ret (Some hits)
  end.

(** [getEntityLabelById]: the label of the fetched entity, or the id itself
    when [getLabel] throws. *)
Definition getEntityLabelById (s : site) (entityId : value) (language : string) : M value :=
  entity <- getEntity s entityId ;;
  match getLabel entity language with
  | Ok label => ret label
  | Throw _ => ret entityId
  end.

(** What [getPropertyValue] hands back: a value, or the promise made by
    [getEntityLabelById], kept with the value it settles to. *)
Inductive propval :=
| Plain (v : value)
| Promised (settles_to : value).

Definition is_string (v : value) : bool :=
  match v with VStr _ => true | _ => false end.

(** The branches on [claim.mainsnak.datavalue.value]. *)
Definition value_of_datavalue (s : site) (value : value) (language : string) : M propval :=
  id <- lift (get_prop value "id") ;;
  if truthy id then
    label <- getEntityLabelById s id language ;;
    ret (Promised label)
  else if is_string value then ret (Plain value)
  else
    text <- lift (get_prop value "text") ;;
    if truthy text then ret (Plain text)
    else
      amount <- lift (get_prop value "amount") ;;
      if truthy amount then ret (Plain amount)
      else
        time <- lift (get_prop value "time") ;;
        if truthy time then ret (Plain time)
        else ret (Plain (VStr no_property)).

(** From [const claim = entity.claims[propertyId][0]] on. *)
Definition value_of_claim (s : site) (claim : value) (language : string) : M propval :=
  mainsnak <- lift (get_prop claim "mainsnak") ;;
  datavalue <- lift (get_prop mainsnak "datavalue") ;;
  if truthy datavalue then
    value <- lift (get_prop datavalue "value") ;;
    value_of_datavalue s value language
  else ret (Plain (VStr no_property)).

Definition getPropertyValue (s : site) (entity : value) (propertyId language : string)
  : M propval :=
  claims <- lift (get_prop entity "claims") ;;
  if truthy claims then
    list <- lift (get_prop claims propertyId) ;;
    if truthy list then
      claim <- lift (get_prop list "0") ;;
      value_of_claim s claim language
    else ret (Plain (VStr no_property))
  else ret (Plain (VStr no_property)).

(** [await] of what [getPropertyValue] returned. *)
Definition await (p : propval) : value :=
  match p with
  | Plain v => v
  | Promised v => v
  end.

(** [formatWikidataDate] applied to what [getPropertyValue] returned: a
    promise is truthy and has no [match] member. *)
Definition formatWikidataDate_of (p : propval) : res value :=
  match p with
  | Plain v => formatWikidataDate v
  | Promised _ => Throw TypeError
  end.

End WithNetwork.
End Client.

(** ** ProjectDetailApp *)

Module ProjectDetailApp.
Import WikidataAPI Client.

Definition nl : string := String (ascii_of_nat 10) EmptyString.
Definition dq : string := String (ascii_of_nat 34) EmptyString.

Fixpoint sp (n : nat) : string :=
  match n with
  | O => EmptyString
  | S m => String " " (sp m)
  end.

(** [new URLSearchParams(window.location.search)], already decoded: names
    and values are well-formed strings. *)
Definition URLSearchParams := list (string * string).

(** [urlParams.get(name)]: the first value under that name, or [null]. *)
Fixpoint params_get (name : string) (ps : URLSearchParams) : option string :=
  match ps with
  | [] => None
  | (k, v) :: rest => if String.eqb k name then Some v else params_get name rest
  end.

(** [urlParams.get(name) || fallback] *)
Definition get_or (name fallback : string) (ps : URLSearchParams) : string :=
  match params_get name ps with
  | Some v => if String.eqb v "" then fallback else v
  | None => fallback
  end.

Record app := mkApp {
  artistName : string;
  workName : string;
  year : string
}.

Definition constructor (urlParams : URLSearchParams) : app :=
  mkApp (get_or "artist" "Giuseppe Penone" urlParams)
        (get_or "work" "Albero della Vita" urlParams)
        (get_or "year" "1962" urlParams).

Definition item_html (key text : string) : string :=
  nl ++ sp 16 ++ "<div class=" ++ dq ++ "wikidata-item" ++ dq ++ ">" ++
  nl ++ sp 20 ++ "<div class=" ++ dq ++ "metadata-label" ++ dq ++ ">" ++ key ++ ":</div>" ++
  nl ++ sp 20 ++ "<div class=" ++ dq ++ "metadata-value" ++ dq ++ ">" ++ text ++ "</div>" ++
  nl ++ sp 16 ++ "</div>" ++
  nl ++ sp 12.

(** The markup built entry by entry; the interpolation of a value may
    throw, which ends the loop. *)
Fixpoint metadata_html (data : list (string * value)) : res string :=
  match data with
  | [] => Ok ""
  | (key, v) :: rest =>
      text <-? to_js_string v ;;
      others <-? metadata_html rest ;;
      Ok (item_html key text ++ others)
  end.

Definition renderMetadata (container : option string) (data : list (string * value)) : M unit :=
  html <- lift (metadata_html data) ;;
  assign container (set_innerHTML html).

Definition no_data_html (what name : string) : string :=
  nl ++ sp 12 ++ "<div class=" ++ dq ++ "alert alert-warning" ++ dq ++ ">" ++
  nl ++ sp 16 ++ "<i class=" ++ dq ++ "fas fa-exclamation-triangle me-2" ++ dq ++ "></i>" ++
  nl ++ sp 16 ++ "Nessun dato trovato su Wikidata per l'" ++ what ++ " " ++ dq ++ name ++ dq ++ "." ++
  nl ++ sp 12 ++ "</div>" ++
  nl ++ sp 8.

Definition error_html : string :=
  nl ++ sp 12 ++ "<div class=" ++ dq ++ "alert alert-danger" ++ dq ++ ">" ++
  nl ++ sp 16 ++ "<h4>Errore nel caricamento dei dati</h4>" ++
  nl ++ sp 16 ++ "<p>Si è verificato un errore durante il caricamento delle informazioni da Wikidata.</p>" ++
  nl ++ sp 16 ++ "<a href=" ++ dq ++ "edition-1962.html" ++ dq ++ " class=" ++ dq ++ "btn btn-primary" ++ dq ++ ">Torna all'edizione 1962</a>" ++
  nl ++ sp 12 ++ "</div>" ++
  nl ++ sp 8.

Definition msg_init : string := "Error initializing app:".

Section WithNetwork.
Variable net : network.
Variable this : app.

Definition showLoading : M unit :=
  spinner <- getElementById "loadingSpinner" ;;
  assign spinner (set_display "block") ;;;
  content <- getElementById "projectContent" ;;
  assign content (set_display "none").

Definition hideLoading : M unit :=
  spinner <- getElementById "loadingSpinner" ;;
  assign spinner (set_display "none").

Definition showContent : M unit :=
  content <- getElementById "projectContent" ;;
  assign content (set_display "block").

Definition showError : M unit :=
  container <- getElementById "projectContent" ;;
  assign container (set_innerHTML error_html).

Definition displayNoArtistData : M unit :=
  container <- getElementById "artistWikidata" ;;
  assign container (set_innerHTML (no_data_html "artista" (artistName this))).

Definition displayNoWorkData : M unit :=
  container <- getElementById "workWikidata" ;;
  assign container (set_innerHTML (no_data_html "opera" (workName this))).

(** One entry of the display data read with [getPropertyValue]; the label
    lookup it may start belongs to the field. *)
Definition field_value (f : flow) (field : string) (entity : value) (propertyId : string)
  : M value :=
  p <- getPropertyValue net (LabelSite f field) entity propertyId default_language ;;
  ret (await p).

Definition field_date (f : flow) (field : string) (entity : value) (propertyId : string)
  : M value :=
  p <- getPropertyValue net (LabelSite f field) entity propertyId default_language ;;
  lift (formatWikidataDate_of p).

Definition artist_data (artist : value) : M (list (string * value)) :=
  nome <- lift (getLabel artist default_language) ;;
  descrizione <- lift (getDescription artist default_language) ;;
  nascita <- field_date Artist "Data di nascita" artist "P569" ;;
  luogo <- field_value Artist "Luogo di nascita" artist "P19" ;;
  nazionalita <- field_value Artist "Nazionalità" artist "P27" ;;
  movimento <- field_value Artist "Movimento artistico" artist "P135" ;;
  ret [("Nome", nome); ("Descrizione", descrizione); ("Data di nascita", nascita);
       ("Luogo di nascita", luogo); ("Nazionalità", nazionalita);
       ("Movimento artistico", movimento)].

Definition displayArtistData (artist : value) : M unit :=
  container <- getElementById "artistWikidata" ;;
  data <- artist_data artist ;;
  renderMetadata container data.

(** [displayArtistData] up to its first [await]: the container is looked
    up and [getLabel(artist)] is evaluated. *)
Definition displayArtistData_first (artist : value) : res unit :=
  nome <-? getLabel artist default_language ;; Ok tt.

Definition work_data (work : value) : M (list (string * value)) :=
  titolo <- lift (getLabel work default_language) ;;
  descrizione <- lift (getDescription work default_language) ;;
  creazione <- field_date Work "Data di creazione" work "P571" ;;
  tecnica <- field_value Work "Tecnica" work "P186" ;;
  materiale <- field_value Work "Materiale" work "P186" ;;
  dimensioni <- field_value Work "Dimensioni" work "P2049" ;;
  genere <- field_value Work "Genere" work "P136" ;;
  ret [("Titolo", titolo); ("Descrizione", descrizione); ("Data di creazione", creazione);
       ("Tecnica", tecnica); ("Materiale", materiale); ("Dimensioni", dimensioni);
       ("Genere", genere)].

Definition displayWorkData (work : value) : M unit :=
  container <- getElementById "workWikidata" ;;
  data <- work_data work ;;
  renderMetadata container data.

Definition displayWorkData_first (work : value) : res unit :=
  titolo <-? getLabel work default_language ;; Ok tt.

(** [results.length > 0] on what [searchEntities] returned, then
    [results[0].id]. *)
Definition first_hit (results : option (list value)) : res (option value) :=
  match results with
  | None => Throw TypeError
  | Some [] => Ok None
  | Some (hit :: _) => Ok (Some hit)
  end.

Definition loadArtistData : M unit :=
  artistResults <- searchEntities net (SearchSite Artist) (artistName this) ;;
  first <- lift (first_hit artistResults) ;;
  match first with
  | Some hit =>
      id <- lift (get_prop hit "id") ;;
      artistEntity <- getEntity net (EntitySite Artist) id ;;
      detached Artist (displayArtistData_first artistEntity) (displayArtistData artistEntity)
  | None => displayNoArtistData
  end.

Definition loadWorkData : M unit :=
  workResults <- searchEntities net (SearchSite Work)
                   (workName this ++ " " ++ artistName this) ;;
  first <- lift (first_hit workResults) ;;
  match first with
  | Some hit =>
      id <- lift (get_prop hit "id") ;;
      workEntity <- getEntity net (EntitySite Work) id ;;
      detached Work (displayWorkData_first workEntity) (displayWorkData workEntity) ;;;
      wikidataLink <- getElementById "viewOnWikidata" ;;
      id' <- lift (get_prop hit "id") ;;
      address <- lift (to_js_string id') ;;
      assign wikidataLink (set_href ("https://www.wikidata.org/wiki/" ++ address)) ;;;
      assign wikidataLink (set_disabled false)
  | None => displayNoWorkData
  end.

Definition init : M unit :=
  showLoading ;;;
  try_catch
    (t <- getElementById "projectTitle" ;;
     assign t (set_textContent (workName this)) ;;;
     a <- getElementById "projectArtist" ;;
     assign a (set_textContent (artistName this)) ;;;
     y <- getElementById "projectYear" ;;
     assign y (set_textContent (year this)) ;;;
     set_title (workName this ++ " - " ++ artistName this ++ " | Biennale Eco Archive") ;;;
     loadArtistData ;;;
     loadWorkData ;;;
     hideLoading ;;;
     showContent)
    (fun _ =>
     console_error msg_init ;;;
     hideLoading ;;;
     showContent ;;;
     showError).

End WithNetwork.

(** The script's last lines: build the controller from the query string
    and start it. *)
Definition page_load (net : network) (urlParams : URLSearchParams) : M unit :=
  init net (constructor urlParams).

End ProjectDetailApp.

(** ** Sample pages and networks *)

Module Samples.
Import WikidataAPI Client ProjectDetailApp.
#[local] Open Scope list_scope.

Definition page_ids : list string :=
  ["projectTitle"; "projectArtist"; "projectYear"; "artistWikidata"; "workWikidata";
   "viewOnWikidata"; "loadingSpinner"; "projectContent"].

Definition placeholder : element := mkElement "" "..." "" "#" true.

Definition full_page : page :=
  fun k => if existsb (String.eqb k) page_ids then Some placeholder else None.

Definition start (p : page) : state := mkState p "" [] [] [] [] [].

Definition hit (id : string) : value := VObj [("id", VStr id)].

Definition body (id : string) (entity : value) : value :=
  VObj [("entities", VObj [(id, entity)])].

Definition labelled (name : string) : value :=
  VObj [("labels", VObj [("it", VObj [("language", VStr "it"); ("value", VStr name)])])].

(** A claim whose value refers to another entity. *)
Definition entity_claim (id : string) : value :=
  VObj [("mainsnak", VObj [("datavalue", VObj [("value", VObj [("id", VStr id)])])])].

Definition time_claim (t : string) : value :=
  VObj [("mainsnak", VObj [("datavalue", VObj [("value", VObj [("time", VStr t)])])])].

Definition is_search (f : flow) (s : site) : bool :=
  match s, f with
  | SearchSite Artist, Artist | SearchSite Work, Work => true
  | _, _ => false
  end.

Definition is_entity (f : flow) (s : site) : bool :=
  match s, f with
  | EntitySite Artist, Artist | EntitySite Work, Work => true
  | _, _ => false
  end.

Definition is_label (f : flow) (field : string) (s : site) : bool :=
  match s, f with
  | LabelSite Artist x, Artist | LabelSite Work x, Work => String.eqb x field
  | _, _ => false
  end.

(** The artist is found, but the lookup of the entity fails; nothing is
    found for the work. *)
Definition net_lost_entity : network :=
  mkNetwork
    (fun s _ => if is_search Artist s then SearchList [hit "Q1"] else SearchList [])
    (fun _ _ => None).

(** An artist whose birth place is itself an entity. *)
Definition penone : value :=
  VObj [("labels", VObj [("it", VObj [("value", VStr "Giuseppe Penone")])]);
        ("claims", VObj [("P569", VArr [time_claim "+1947-04-03T00:00:00Z"]);
                         ("P19", VArr [entity_claim "Q19484"])])].

Definition net_birth_place : network :=
  mkNetwork
    (fun s _ => if is_search Artist s then SearchList [hit "Q1"] else SearchList [hit "Q2"])
    (fun s id =>
       if is_entity Artist s then Some (body "Q1" penone)
       else if is_entity Work s then Some (body "Q2" (labelled "Albero della Vita"))
       else if String.eqb id "Q19484" then Some (body "Q19484" (labelled "Garessio"))
       else None).

(** A work made with a material that is itself an entity; the label of the
    material is delivered to the first lookup and not to the second. *)
Definition albero : value :=
  VObj [("labels", VObj [("it", VObj [("value", VStr "Albero della Vita")])]);
        ("claims", VObj [("P186", VArr [entity_claim "Q287"])])].

Definition net_second_lookup_fails : network :=
  mkNetwork
    (fun s _ => if is_search Work s then SearchList [hit "Q2"] else SearchList [])
    (fun s id =>
       if is_entity Work s then Some (body "Q2" albero)
       else if is_label Work "Tecnica" s then Some (body "Q287" (labelled "legno"))
       else None).

(** The search endpoint answers with a body that has no [search] list. *)
Definition net_no_list : network :=
  mkNetwork (fun _ _ => SearchNoList) (fun _ _ => None).

(** A page with one more element than the script knows. *)
Definition page_with_footer : page :=
  fun k => if String.eqb k "footer" then Some (mkElement "Biennale" "<p>Biennale</p>" "" "" false)
           else full_page k.



End Samples.

(** * Properties *)

(** ** Entity documents *)

(** A member map (the [labels], [descriptions] or [claims] member of an
    entity document) holds [x] under [k]. *)
Definition holds (m : option value) (k : string) (x : value) : Prop :=
  exists ms, m = Some (VObj ms) /\ lookup k ms = Some x.

(** [k] names a member that every object inherits. *)
Definition inherited (k : string) : bool := named object_prototype k.

(** The member map is missing, or has nothing under [k]: no own member,
    and none that it inherits. *)
Definition lacks (m : option value) (k : string) : Prop :=
  m = None \/ exists ms, m = Some (VObj ms) /\ lookup k ms = None /\ inherited k = false.

Definition member (k : string) (o : list (string * value)) : value :=
  match lookup k o with
  | Some x => x
  | None => VUndef
  end.

Section Extraction.
Import WikidataAPI Client.

Lemma getLabel_present fields language l :
  holds (lookup "labels" fields) language (VObj l) ->
  getLabel (VObj fields) language = Ok (member "value" l).
Proof.
  intros (ms & Hm & Hl). unfold getLabel. cbn.
  rewrite Hm. cbn. now rewrite Hl.
Qed.

Lemma get_prop_own o k x : lookup k o = Some x -> get_prop (VObj o) k = Ok x.
Proof. intros H. cbn. now rewrite H. Qed.

Lemma get_prop_none o k :
  lookup k o = None -> inherited k = false -> get_prop (VObj o) k = Ok VUndef.
Proof.
  intros H Hi. cbn. rewrite H. unfold inherited_member. cbn [List.app].
  unfold inherited in Hi. now rewrite Hi.
Qed.

Lemma get_prop_inherited o k :
  lookup k o = None -> inherited k = true -> get_prop (VObj o) k = Ok VNative.
Proof.
  intros H Hi. cbn. rewrite H. unfold inherited_member. cbn [List.app].
  unfold inherited in Hi. now rewrite Hi.
Qed.

Lemma getLabel_absent fields language :
  lacks (lookup "labels" fields) language ->
  getLabel (VObj fields) language = Ok (VStr "Informazione non disponibile").
Proof.
  intros [Hn | (ms & Hm & Hl & Hi)]; unfold getLabel.
  - rewrite (get_prop_none _ _ Hn eq_refl). reflexivity.
  - rewrite (get_prop_own _ _ _ Hm). cbn [res_bind truthy].
    rewrite (get_prop_none _ _ Hl Hi). reflexivity.
Qed.



Lemma getPropertyValue_no_property net s fields propertyId language st :
  lacks (lookup "claims" fields) propertyId ->
  getPropertyValue net s (VObj fields) propertyId language st
  = (Ok (Plain (VStr "Non specificato")), st).
Proof.
  intros [Hn | (ms & Hm & Hl & Hi)]; unfold getPropertyValue, bind, lift.
  - rewrite (get_prop_none _ _ Hn eq_refl). reflexivity.
  - rewrite (get_prop_own _ _ _ Hm). cbn [truthy].
    rewrite (get_prop_none _ _ Hl Hi). reflexivity.
Qed.

(** With a claim list under the property, the outcome is that of the
    branches applied to its first entry. *)
Lemma getPropertyValue_first_claim net s fields propertyId language claims list :
  lookup "claims" fields = Some (VObj claims) ->
  lookup propertyId claims = Some (VArr list) ->
  getPropertyValue net s (VObj fields) propertyId language
  = value_of_claim net s (nth 0 list VUndef) language.
Proof.
  intros Hc Hl. unfold getPropertyValue, bind, lift. cbn.
  rewrite Hc. cbn. rewrite Hl. cbn. reflexivity.
Qed.



(** What the three helpers do with the name of a member that every object
    inherits, on maps that contain nothing: the inherited function is
    found, its [value] is [undefined], and it has no first claim to read
    [mainsnak] from. *)
Example inherited_name_outcomes (net : network) (s : site) (st : state) :
  getLabel (VObj [("labels", VObj [])]) "constructor" = Ok VUndef
  /\ getDescription (VObj [("descriptions", VObj [])]) "constructor" = Ok VUndef
  /\ getPropertyValue net s (VObj [("claims", VObj [])]) "constructor" "it" st
     = (Throw TypeError, st).
Proof. repeat split. Qed.



(** C9. [getPropertyValue] looks at the first entry of the claim list only:
    two entity documents whose claim lists for the property start with the
    same entry get the same outcome, with the same effects, whatever else
    the lists and the documents hold. *)
Theorem getPropertyValue_first_claim_only (net : network) (s : site)
    (fields1 fields2 claims1 claims2 : list (string * value))
    (list1 list2 : list value) (propertyId language : string) (st : state) :
  lookup "claims" fields1 = Some (VObj claims1) ->
  lookup "claims" fields2 = Some (VObj claims2) ->
  lookup propertyId claims1 = Some (VArr list1) ->
  lookup propertyId claims2 = Some (VArr list2) ->
  nth 0 list1 VUndef = nth 0 list2 VUndef ->
  getPropertyValue net s (VObj fields1) propertyId language st
  = getPropertyValue net s (VObj fields2) propertyId language st.
Proof.
  intros Hc1 Hc2 Hl1 Hl2 Hfirst.
  rewrite (getPropertyValue_first_claim _ _ _ _ _ _ _ Hc1 Hl1).
  rewrite (getPropertyValue_first_claim _ _ _ _ _ _ _ Hc2 Hl2).
  now rewrite Hfirst.
Qed.

End Extraction.

(** ** Dates *)

Module DateFormat.
Import WikidataAPI.

Fixpoint all_digits (s : string) : bool :=
  match s with
  | EmptyString => true
  | String c r => is_digit c && all_digits r
  end.

Definition digits (n : nat) (s : string) : Prop :=
  String.length s = n /\ all_digits s = true.

(** [t] starts with '+', four digits, '-', two digits, '-', two digits;
    [year] is the four digits. *)
Definition date_shape (t year : string) : Prop :=
  exists month day rest,
    t = "+" ++ year ++ "-" ++ month ++ "-" ++ day ++ rest
    /\ digits 4 year /\ digits 2 month /\ digits 2 day.

Fixpoint drop (i : nat) (s : string) : string :=
  match i, s with
  | O, _ => s
  | S j, String _ r => drop j r
  | S _, EmptyString => EmptyString
  end.

(** The pattern applies in [s] from position [i] on. *)
Definition occurs_at (s : string) (i : nat) (year : string) : Prop :=
  date_shape (drop i s) year.

Lemma match_here_sound t year : match_here t = Some year -> date_shape t year.
Proof.
  intros H.
  destruct t as [|p t]; [discriminate H|].
  destruct t as [|y1 t]; [discriminate H|].
  destruct t as [|y2 t]; [discriminate H|].
  destruct t as [|y3 t]; [discriminate H|].
  destruct t as [|y4 t]; [discriminate H|].
  destruct t as [|h1 t]; [discriminate H|].
  destruct t as [|m1 t]; [discriminate H|].
  destruct t as [|m2 t]; [discriminate H|].
  destruct t as [|h2 t]; [discriminate H|].
  destruct t as [|d1 t]; [discriminate H|].
  destruct t as [|d2 t]; [discriminate H|].
  cbn in H.
  match type of H with (if ?c then _ else _) = _ => destruct c eqn:E end;
    [|discriminate H].
  injection H as <-.
  repeat (apply andb_prop in E; destruct E as [E ?]).
  repeat match goal with
         | h : Ascii.eqb _ _ = true |- _ => apply Ascii.eqb_eq in h; subst
         end.
  exists (String m1 (String m2 EmptyString)), (String d1 (String d2 EmptyString)), t.
  unfold digits. cbn.
  repeat match goal with h : is_digit _ = true |- _ => rewrite h; clear h end.
  repeat split; reflexivity.
Qed.

Lemma match_here_complete t year : date_shape t year -> match_here t = Some year.
Proof.
  intros (month & day & rest & -> & [Ly Dy] & [Lm Dm] & [Ld Dd]).
  do 4 (destruct year as [|? year]; [discriminate Ly|]).
  destruct year; [|discriminate Ly].
  do 2 (destruct month as [|? month]; [discriminate Lm|]).
  destruct month; [|discriminate Lm].
  do 2 (destruct day as [|? day]; [discriminate Ld|]).
  destruct day; [|discriminate Ld].
  cbn in Dy, Dm, Dd.
  repeat match goal with
         | h : _ && _ = true |- _ => apply andb_prop in h; destruct h
         end.
  cbn.
  repeat match goal with h : is_digit _ = true |- _ => rewrite h; clear h end.
  reflexivity.
Qed.

Lemma regex_search_found s year :
  regex_search s = Some year ->
  exists i, occurs_at s i year /\ forall j y, j < i -> ~ occurs_at s j y.
Proof.
  induction s as [|c r IH]; intros H.
  - cbn in H. discriminate.
  - cbn [regex_search] in H.
    destruct (match_here (String c r)) as [y0|] eqn:E.
    + injection H as <-. exists 0. split.
      * now apply match_here_sound.
      * intros j y Hj. lia.
    + destruct (IH H) as (i & Hi & Hleft). exists (S i). split.
      * exact Hi.
      * intros [|j] y Hj Hocc.
        -- apply match_here_complete in Hocc. cbn [drop] in Hocc. congruence.
        -- apply (Hleft j y); [lia|exact Hocc].
Qed.

Lemma regex_search_none s :
  regex_search s = None -> forall i y, ~ occurs_at s i y.
Proof.
  induction s as [|c r IH]; intros H i y Hocc.
  - apply match_here_complete in Hocc. destruct i; discriminate Hocc.
  - cbn [regex_search] in H.
    destruct (match_here (String c r)) eqn:E; [discriminate H|].
    destruct i as [|i].
    + apply match_here_complete in Hocc. cbn [drop] in Hocc. congruence.
    + exact (IH H i y Hocc).
Qed.

Lemma regex_search_leftmost s i year :
  occurs_at s i year ->
  (forall j y, j < i -> ~ occurs_at s j y) ->
  regex_search s = Some year.
Proof.
  intros Hocc Hleft.
  destruct (regex_search s) as [y0|] eqn:E.
  - destruct (regex_search_found _ _ E) as (i0 & Hi0 & Hleft0).
    destruct (Nat.lt_trichotomy i0 i) as [Hlt | [-> | Hgt]].
    + exfalso. exact (Hleft i0 y0 Hlt Hi0).
    + apply match_here_complete in Hocc, Hi0. congruence.
    + exfalso. exact (Hleft0 i year Hgt Hocc).
  - exfalso. exact (regex_search_none _ E i year Hocc).
Qed.

(** C5. On a string in which the pattern '+', four digits, '-', two digits,
    '-', two digits applies, [formatWikidataDate] gives the four digits of
    the leftmost place where it applies (so the year, for a string that
    starts with the pattern); on [null], [undefined] and the empty string it
    gives 'Data non disponibile'; every other non-empty string comes back
    unchanged. *)
Theorem formatWikidataDate_cases :
  (forall s year, date_shape s year ->
     formatWikidataDate (VStr s) = Ok (VStr year))
  /\ (forall s i year,
        occurs_at s i year -> (forall j y, j < i -> ~ occurs_at s j y) ->
        formatWikidataDate (VStr s) = Ok (VStr year))
  /\ formatWikidataDate VNull = Ok (VStr "Data non disponibile")
  /\ formatWikidataDate VUndef = Ok (VStr "Data non disponibile")
  /\ formatWikidataDate (VStr "") = Ok (VStr "Data non disponibile")
  /\ (forall s, s <> "" -> (forall i y, ~ occurs_at s i y) ->
        formatWikidataDate (VStr s) = Ok (VStr s)).
Proof.
  assert (Hgen : forall s i year,
             occurs_at s i year -> (forall j y, j < i -> ~ occurs_at s j y) ->
             formatWikidataDate (VStr s) = Ok (VStr year)).
  { intros s i year Hocc Hleft.
    pose proof (regex_search_leftmost _ _ _ Hocc Hleft) as E.
    unfold formatWikidataDate. cbn [truthy].
    destruct (String.eqb s "") eqn:Es.
    - apply String.eqb_eq in Es. subst s. cbn in E. discriminate.
    - cbn. now rewrite E. }
  repeat split; try reflexivity.
  - intros s year Hs. apply (Hgen s 0 year); [exact Hs|]. intros j y Hj. lia.
  - exact Hgen.
  - intros s Hne Hnone. unfold formatWikidataDate. cbn [truthy].
    destruct (String.eqb s "") eqn:Es.
    + apply String.eqb_eq in Es. contradiction.
    + cbn. destruct (regex_search s) as [y|] eqn:E; [|reflexivity].
      destruct (regex_search_found _ _ E) as (i & Hi & _).
      exfalso. exact (Hnone i y Hi).
Qed.

End DateFormat.

(** ** Query parameters *)

Module Params.
Import ProjectDetailApp.

(** The reading of C7 under which a parameter that is present is always
    used as it is. *)
Definition present_value_used : Prop :=
  forall (urlParams : URLSearchParams) (v : string),
    params_get "artist" urlParams = Some v ->
    artistName (constructor urlParams) = v.

(** The query string [?artist=] carries the parameter with an empty value;
    [||] then takes the default. *)
Lemma empty_artist_parameter : ~ present_value_used.
Proof.
  intros H. specialize (H [("artist", "")] "" eq_refl). discriminate H.
Qed.

Lemma get_or_default name fallback ps :
  params_get name ps = None \/ params_get name ps = Some "" ->
  get_or name fallback ps = fallback.
Proof.
  unfold get_or. intros [-> | ->]; reflexivity.
Qed.

Lemma get_or_present name fallback ps v :
  params_get name ps = Some v -> v <> "" -> get_or name fallback ps = v.
Proof.
  unfold get_or. intros -> Hv.
  destruct (String.eqb v "") eqn:E; [|reflexivity].
  apply String.eqb_eq in E. contradiction.
Qed.

(** C7 (amended). The controller takes 'artist', 'work' and 'year' from the
    query parameters; a parameter that is absent or empty gives the default
    ('Giuseppe Penone', 'Albero della Vita', '1962'), a parameter with a
    non-empty value gives exactly that value. *)
Theorem constructor_parameters (urlParams : URLSearchParams) :
  let this := constructor urlParams in
  (params_get "artist" urlParams = None \/ params_get "artist" urlParams = Some "" ->
   artistName this = "Giuseppe Penone")
  /\ (params_get "work" urlParams = None \/ params_get "work" urlParams = Some "" ->
      workName this = "Albero della Vita")
  /\ (params_get "year" urlParams = None \/ params_get "year" urlParams = Some "" ->
      year this = "1962")
  /\ (forall v, params_get "artist" urlParams = Some v -> v <> "" -> artistName this = v)
  /\ (forall v, params_get "work" urlParams = Some v -> v <> "" -> workName this = v)
  /\ (forall v, params_get "year" urlParams = Some v -> v <> "" -> year this = v).
Proof.
  cbn. repeat split;
    first [ apply get_or_default | intros v; apply get_or_present ].
Qed.

End Params.

(** ** Failures of the two endpoints *)

Module Failures.
Import WikidataAPI Client.
#[local] Open Scope list_scope.

Definition logged (msg : string) (s : site) (r : request) (st : state) : state :=
  mkState (dom st) (title st) (console st ++ [msg]) (requests st ++ [(s, r)])
          (written st) (unhandled st) (pending st).

(** A line on the console and nothing else. *)
Definition noted (msg : string) (st : state) : state :=
  mkState (dom st) (title st) (console st ++ [msg]) (requests st)
          (written st) (unhandled st) (pending st).

Lemma getEntity_asked net s entityId key st :
  to_js_string entityId = Ok key ->
  exists v st',
    getEntity net s entityId st = (Ok v, st')
    /\ requests st' = requests st ++ [(s, ReqEntity key)].
Proof.
  intros Hk. unfold getEntity. rewrite Hk.
  unfold bind, issue, console_error, ret. cbn.
  destruct (entity_answer net s key) as [data|]; cbn.
  - destruct (get_prop data "entities") as [entities|]; cbn.
    + destruct (get_prop entities key); cbn; eauto.
    + eauto.
  - eauto.
Qed.

Lemma getEntity_unasked net s entityId e st :
  to_js_string entityId = Throw e ->
  getEntity net s entityId st = (Ok VNull, noted "Error fetching Wikidata entity:" st).
Proof. intros Hk. unfold getEntity. now rewrite Hk. Qed.

Lemma getEntity_returns net s entityId st :
  exists v st', getEntity net s entityId st = (Ok v, st').
Proof.
  destruct (to_js_string entityId) as [key|e] eqn:Hk.
  - destruct (getEntity_asked net s entityId key st Hk) as (v & st' & H & _). eauto.
  - rewrite (getEntity_unasked net s entityId e st Hk). eauto.
Qed.



End Failures.

(** ** Relations kept by every step of a run *)

Module Kept.
Import WikidataAPI Client ProjectDetailApp.
#[local] Open Scope list_scope.

Definition with_console (msg : string) (st : state) : state :=
  mkState (dom st) (title st) (console st ++ [msg]) (requests st) (written st)
          (unhandled st) (pending st).
Definition with_request (s : site) (r : request) (st : state) : state :=
  mkState (dom st) (title st) (console st) (requests st ++ [(s, r)]) (written st)
          (unhandled st) (pending st).
Definition with_title (t : string) (st : state) : state :=
  mkState (dom st) t (console st) (requests st) (written st) (unhandled st) (pending st).
Definition with_unhandled (f : flow) (st : state) : state :=
  mkState (dom st) (title st) (console st) (requests st) (written st)
          (unhandled st ++ [f]) (pending st).
Definition with_pending (o : outcome) (st : state) : state :=
  mkState (dom st) (title st) (console st) (requests st) (written st)
          (unhandled st) (pending st ++ [o]).
Definition with_element (id : string) (e : element) (st : state) : state :=
  mkState (page_update id e (dom st)) (title st) (console st) (requests st)
          (written st ++ [id]) (unhandled st) (pending st).

Section Quiet.
(** A relation between the state before and after, kept by everything that
    does not assign to the page. *)
Variable R : state -> state -> Prop.
Hypothesis R_refl : forall st, R st st.
Hypothesis R_trans : forall a b c, R a b -> R b c -> R a c.
Hypothesis R_console : forall msg st, R st (with_console msg st).
Hypothesis R_request : forall s r st, R st (with_request s r st).

(** [m] keeps [R], and a value it returns satisfies [Q]. *)
Definition keeps {A} (m : M A) (Q : A -> Prop) : Prop :=
  forall st, R st (snd (m st)) /\ forall a, fst (m st) = Ok a -> Q a.

Lemma keeps_ret {A} (a : A) (Q : A -> Prop) : Q a -> keeps (ret a) Q.
Proof. intros H st. cbn. split; [apply R_refl|]. now intros ? [= <-]. Qed.

Lemma keeps_lift {A} (r : res A) : keeps (lift r) (fun _ => True).
Proof. intros st. cbn. split; [apply R_refl|trivial]. Qed.

Lemma keeps_weaken {A} (m : M A) (Q Q' : A -> Prop) :
  keeps m Q -> (forall a, Q a -> Q' a) -> keeps m Q'.
Proof. intros H HQ st. destruct (H st) as [H1 H2]. split; auto. Qed.

Lemma keeps_bind {A B} (m : M A) (k : A -> M B) (Q : A -> Prop) (Q' : B -> Prop) :
  keeps m Q -> (forall a, Q a -> keeps (k a) Q') -> keeps (bind m k) Q'.
Proof.
  intros Hm Hk st. unfold bind. destruct (Hm st) as [H1 H2].
  destruct (m st) as [[a|e] st1]; cbn in *.
  - destruct (Hk a (H2 a eq_refl) st1) as [H3 H4]. split; [|exact H4].
    eapply R_trans; eauto.
  - split; [exact H1|discriminate].
Qed.

Lemma keeps_try_catch {A} (body : M A) (handler : exn -> M A) (Q : A -> Prop) :
  keeps body Q -> (forall e, keeps (handler e) Q) -> keeps (try_catch body handler) Q.
Proof.
  intros Hb Hh st. unfold try_catch. destruct (Hb st) as [H1 H2].
  destruct (body st) as [[a|e] st1]; cbn in *.
  - split; auto.
  - destruct (Hh e st1) as [H3 H4]. split; [|exact H4]. eapply R_trans; eauto.
Qed.

Lemma keeps_console msg : keeps (console_error msg) (fun _ => True).
Proof. intros st. cbn. split; [apply R_console|trivial]. Qed.

Lemma keeps_issue s r : keeps (issue s r) (fun _ => True).
Proof. intros st. cbn. split; [apply R_request|trivial]. Qed.

Lemma keeps_getElementById id :
  keeps (getElementById id) (fun h => h = None \/ h = Some id).
Proof.
  intros st. cbn. split; [apply R_refl|].
  intros a [= <-]. destruct (dom st id); auto.
Qed.

Lemma keeps_assign_null upd : keeps (assign None upd) (fun _ => True).
Proof. intros st. cbn. split; [apply R_refl|trivial]. Qed.

Ltac quiet :=
  repeat first
    [ apply keeps_lift | apply keeps_console | apply keeps_issue
    | apply keeps_ret; exact I
    | eapply keeps_bind; [ | intros ? _ ] ].

Lemma keeps_getEntity net s entityId : keeps (getEntity net s entityId) (fun _ => True).
Proof.
  unfold getEntity.
  destruct (to_js_string entityId) as [key|]; [|quiet].
  eapply keeps_bind; [apply keeps_issue|intros _ _].
  destruct (entity_answer net s key) as [data|].
  - destruct (res_bind (get_prop data "entities") _); quiet.
  - quiet.
Qed.

Lemma keeps_searchEntities net s term : keeps (searchEntities net s term) (fun _ => True).
Proof.
  unfold searchEntities.
  eapply keeps_bind; [apply keeps_issue|intros _ _].
  destruct (search_answer net s term); quiet.
Qed.

Lemma keeps_getEntityLabelById net s entityId language :
  keeps (getEntityLabelById net s entityId language) (fun _ => True).
Proof.
  unfold getEntityLabelById.
  eapply keeps_bind; [apply keeps_getEntity|intros entity _].
  destruct (getLabel entity language); quiet.
Qed.

Lemma keeps_value_of_datavalue net s v language :
  keeps (value_of_datavalue net s v language) (fun _ => True).
Proof.
  unfold value_of_datavalue.
  eapply keeps_bind; [apply keeps_lift|intros id _].
  destruct (truthy id).
  - eapply keeps_bind; [apply keeps_getEntityLabelById|intros ? _]. quiet.
  - destruct (is_string v); [quiet|].
    eapply keeps_bind; [apply keeps_lift|intros text _].
    destruct (truthy text); [quiet|].
    eapply keeps_bind; [apply keeps_lift|intros amount _].
    destruct (truthy amount); [quiet|].
    eapply keeps_bind; [apply keeps_lift|intros time _].
    destruct (truthy time); quiet.
Qed.

Lemma keeps_value_of_claim net s claim language :
  keeps (value_of_claim net s claim language) (fun _ => True).
Proof.
  unfold value_of_claim.
  eapply keeps_bind; [apply keeps_lift|intros mainsnak _].
  eapply keeps_bind; [apply keeps_lift|intros datavalue _].
  destruct (truthy datavalue); [|quiet].
  eapply keeps_bind; [apply keeps_lift|intros v _].
  apply keeps_value_of_datavalue.
Qed.

Lemma keeps_getPropertyValue net s entity propertyId language :
  keeps (getPropertyValue net s entity propertyId language) (fun _ => True).
Proof.
  unfold getPropertyValue.
  eapply keeps_bind; [apply keeps_lift|intros claims _].
  destruct (truthy claims); [|quiet].
  eapply keeps_bind; [apply keeps_lift|intros list _].
  destruct (truthy list); [|quiet].
  eapply keeps_bind; [apply keeps_lift|intros claim _].
  apply keeps_value_of_claim.
Qed.

Lemma keeps_field_value net f field entity propertyId :
  keeps (field_value net f field entity propertyId) (fun _ => True).
Proof.
  unfold field_value.
  eapply keeps_bind; [apply keeps_getPropertyValue|intros p _]. quiet.
Qed.

Lemma keeps_field_date net f field entity propertyId :
  keeps (field_date net f field entity propertyId) (fun _ => True).
Proof.
  unfold field_date.
  eapply keeps_bind; [apply keeps_getPropertyValue|intros p _]. quiet.
Qed.

Lemma keeps_artist_data net artist : keeps (artist_data net artist) (fun _ => True).
Proof.
  unfold artist_data.
  do 2 (eapply keeps_bind; [apply keeps_lift|intros ? _]).
  eapply keeps_bind; [apply keeps_field_date|intros ? _].
  do 3 (eapply keeps_bind; [apply keeps_field_value|intros ? _]).
  quiet.
Qed.

Lemma keeps_work_data net work : keeps (work_data net work) (fun _ => True).
Proof.
  unfold work_data.
  do 2 (eapply keeps_bind; [apply keeps_lift|intros ? _]).
  eapply keeps_bind; [apply keeps_field_date|intros ? _].
  do 4 (eapply keeps_bind; [apply keeps_field_value|intros ? _]).
  quiet.
Qed.

(** The same, for what assigns to elements that [allowed] admits. *)
Variable allowed : string -> Prop.
Hypothesis R_title : forall t st, R st (with_title t st).
Hypothesis R_unhandled : forall f st, R st (with_unhandled f st).
Variable expected : outcome -> Prop.
Hypothesis R_pending : forall o st, expected o -> R st (with_pending o st).
Hypothesis R_element : forall id e st, allowed id -> R st (with_element id e st).

Definition page_targets : list string :=
  ["projectTitle"; "projectArtist"; "projectYear"; "artistWikidata"; "workWikidata";
   "viewOnWikidata"; "loadingSpinner"; "projectContent"].

Hypothesis allowed_targets : forall id, In id page_targets -> allowed id.

Lemma keeps_set_title t : keeps (set_title t) (fun _ => True).
Proof. intros st. cbn. split; [apply R_title|trivial]. Qed.

Lemma keeps_assign h id upd :
  h = None \/ h = Some id -> In id page_targets -> keeps (assign h upd) (fun _ => True).
Proof.
  intros [-> | ->] Hin st; cbn.
  - split; [apply R_refl|trivial].
  - destruct (dom st id); cbn.
    + split; [apply R_element; auto|trivial].
    + split; [apply R_refl|trivial].
Qed.

Lemma keeps_detached f first (task : M unit) :
  (forall p, expected (run_apart f p task)) ->
  keeps (detached f first task) (fun _ : unit => True).
Proof.
  intros H st. unfold detached. destruct first; cbn.
  - split; [|trivial]. now apply R_pending.
  - split; [|trivial]. apply R_unhandled.
Qed.

(** [document.getElementById(id).property = ...] *)
Lemma keeps_write id upd :
  In id page_targets ->
  keeps (bind (getElementById id) (fun h => assign h upd)) (fun _ => True).
Proof.
  intros Hin. eapply keeps_bind; [apply keeps_getElementById|].
  intros h Hh. now apply keeps_assign with (id := id).
Qed.

Ltac target := cbn; tauto.

Lemma keeps_showLoading : keeps showLoading (fun _ => True).
Proof.
  unfold showLoading.
  eapply keeps_bind; [apply keeps_getElementById|intros h Hh].
  eapply keeps_bind; [apply (keeps_assign _ _ _ Hh); target|intros _ _].
  apply keeps_write. target.
Qed.

Lemma keeps_hideLoading : keeps hideLoading (fun _ => True).
Proof. apply keeps_write. target. Qed.

Lemma keeps_showContent : keeps showContent (fun _ => True).
Proof. apply keeps_write. target. Qed.

Lemma keeps_showError : keeps showError (fun _ => True).
Proof. apply keeps_write. target. Qed.

Lemma keeps_displayNoArtistData this : keeps (displayNoArtistData this) (fun _ => True).
Proof. apply keeps_write. target. Qed.

Lemma keeps_displayNoWorkData this : keeps (displayNoWorkData this) (fun _ => True).
Proof. apply keeps_write. target. Qed.

Lemma keeps_displayArtistData net artist :
  keeps (displayArtistData net artist) (fun _ => True).
Proof.
  unfold displayArtistData, renderMetadata.
  eapply keeps_bind; [apply keeps_getElementById|intros h Hh].
  eapply keeps_bind; [apply keeps_artist_data|intros data _].
  eapply keeps_bind; [apply keeps_lift|intros html _].
  apply (keeps_assign _ _ _ Hh). target.
Qed.

Lemma keeps_displayWorkData net work :
  keeps (displayWorkData net work) (fun _ => True).
Proof.
  unfold displayWorkData, renderMetadata.
  eapply keeps_bind; [apply keeps_getElementById|intros h Hh].
  eapply keeps_bind; [apply keeps_work_data|intros data _].
  eapply keeps_bind; [apply keeps_lift|intros html _].
  apply (keeps_assign _ _ _ Hh). target.
Qed.

Hypothesis expected_artist :
  forall net artist p, expected (run_apart Artist p (displayArtistData net artist)).
Hypothesis expected_work :
  forall net work p, expected (run_apart Work p (displayWorkData net work)).

Lemma keeps_loadArtistData net this : keeps (loadArtistData net this) (fun _ => True).
Proof.
  unfold loadArtistData.
  eapply keeps_bind; [apply keeps_searchEntities|intros results _].
  eapply keeps_bind; [apply keeps_lift|intros [hit|] _].
  - eapply keeps_bind; [apply keeps_lift|intros id _].
    eapply keeps_bind; [apply keeps_getEntity|intros entity _].
    apply keeps_detached. apply expected_artist.
  - apply keeps_displayNoArtistData.
Qed.

Lemma keeps_loadWorkData net this : keeps (loadWorkData net this) (fun _ => True).
Proof.
  unfold loadWorkData.
  eapply keeps_bind; [apply keeps_searchEntities|intros results _].
  eapply keeps_bind; [apply keeps_lift|intros [hit|] _].
  - eapply keeps_bind; [apply keeps_lift|intros id _].
    eapply keeps_bind; [apply keeps_getEntity|intros entity _].
    eapply keeps_bind; [apply keeps_detached; apply expected_work|intros _ _].
    eapply keeps_bind; [apply keeps_getElementById|intros h Hh].
    eapply keeps_bind; [apply keeps_lift|intros id' _].
    eapply keeps_bind; [apply keeps_lift|intros address _].
    eapply keeps_bind; [apply (keeps_assign _ _ _ Hh); target|intros _ _].
    apply (keeps_assign _ _ _ Hh). target.
  - apply keeps_displayNoWorkData.
Qed.

Lemma keeps_init net this : keeps (init net this) (fun _ => True).
Proof.
  unfold init.
  eapply keeps_bind; [apply keeps_showLoading|intros _ _].
  apply keeps_try_catch.
  - do 3 (eapply keeps_bind; [apply keeps_getElementById|intros ? Hh];
          eapply keeps_bind; [apply (keeps_assign _ _ _ Hh); target|intros _ _];
          clear Hh).
    eapply keeps_bind; [apply keeps_set_title|intros _ _].
    eapply keeps_bind; [apply keeps_loadArtistData|intros _ _].
    eapply keeps_bind; [apply keeps_loadWorkData|intros _ _].
    eapply keeps_bind; [apply keeps_hideLoading|intros _ _].
    apply keeps_showContent.
  - intros e.
    eapply keeps_bind; [apply keeps_console|intros _ _].
    eapply keeps_bind; [apply keeps_hideLoading|intros _ _].
    eapply keeps_bind; [apply keeps_showContent|intros _ _].
    apply keeps_showError.
Qed.

End Quiet.

(** *** The targets of the assignments *)

(** What was assigned since [st] went to the fixed elements. *)
Definition on_targets (st st' : state) : Prop :=
  exists w, written st' = written st ++ w /\ Forall (fun id => In id page_targets) w.

Lemma on_targets_refl st : on_targets st st.
Proof. exists []. now rewrite app_nil_r. Qed.

Lemma on_targets_trans a b c : on_targets a b -> on_targets b c -> on_targets a c.
Proof.
  intros (w1 & E1 & F1) (w2 & E2 & F2). exists (w1 ++ w2). split.
  - now rewrite E2, E1, app_assoc.
  - apply Forall_app. now split.
Qed.

Lemma on_targets_same st st' : written st' = written st -> on_targets st st'.
Proof. intros H. exists []. now rewrite app_nil_r. Qed.

Lemma on_targets_element id e st : In id page_targets -> on_targets st (with_element id e st).
Proof. intros Hin. exists [id]. split; [reflexivity|]. now constructor. Qed.

Definition targets_of (o : outcome) : Prop :=
  Forall (fun a => In (fst a) page_targets) (assigns o).

Lemma innerHTML_of_targets p w :
  Forall (fun id => In id page_targets) w ->
  Forall (fun a => In (fst a) page_targets) (flat_map (innerHTML_of p) w).
Proof.
  induction 1 as [|id w Hid _ IH]; cbn; [constructor|].
  apply Forall_app. split; [|exact IH].
  unfold innerHTML_of. destruct (p id); constructor; [exact Hid|constructor].
Qed.

Lemma run_apart_targets f p (task : M unit) :
  on_targets (apart p) (snd (task (apart p))) -> targets_of (run_apart f p task).
Proof.
  intros (w & E & F). unfold targets_of, run_apart.
  destruct (task (apart p)) as [r st]. cbn in *. rewrite E.
  now apply innerHTML_of_targets.
Qed.

Lemma displayArtistData_targets net artist p :
  targets_of (run_apart Artist p (displayArtistData net artist)).
Proof.
  apply run_apart_targets.
  refine (proj1 (keeps_displayArtistData on_targets on_targets_refl on_targets_trans _ _
                   (fun id => In id page_targets) _ _ net artist (apart p))).
  - intros msg s. now apply on_targets_same.
  - intros s r s0. now apply on_targets_same.
  - intros id e s Hin. now apply on_targets_element.
  - auto.
Qed.

Lemma displayWorkData_targets net work p :
  targets_of (run_apart Work p (displayWorkData net work)).
Proof.
  apply run_apart_targets.
  refine (proj1 (keeps_displayWorkData on_targets on_targets_refl on_targets_trans _ _
                   (fun id => In id page_targets) _ _ net work (apart p))).
  - intros msg s. now apply on_targets_same.
  - intros s r s0. now apply on_targets_same.
  - intros id e s Hin. now apply on_targets_element.
  - auto.
Qed.

(** The same for a flow and the tasks it leaves pending. *)
Definition frame (st st' : state) : Prop :=
  on_targets st st'
  /\ exists tasks, pending st' = pending st ++ tasks /\ Forall targets_of tasks.

Lemma frame_refl st : frame st st.
Proof. split; [apply on_targets_refl|]. exists []. now rewrite app_nil_r. Qed.

Lemma frame_trans a b c : frame a b -> frame b c -> frame a c.
Proof.
  intros [H1 (t1 & E1 & F1)] [H2 (t2 & E2 & F2)]. split.
  - eapply on_targets_trans; eauto.
  - exists (t1 ++ t2). split.
    + now rewrite E2, E1, app_assoc.
    + apply Forall_app. now split.
Qed.

Lemma frame_same st st' :
  written st' = written st -> pending st' = pending st -> frame st st'.
Proof.
  intros Hw Hp. split; [now apply on_targets_same|].
  exists []. now rewrite app_nil_r.
Qed.

Lemma frame_element id e st : In id page_targets -> frame st (with_element id e st).
Proof.
  intros Hin. split; [now apply on_targets_element|].
  exists []. cbn. now rewrite app_nil_r.
Qed.

Lemma frame_pending o st : targets_of o -> frame st (with_pending o st).
Proof.
  intros Ho. split; [now apply on_targets_same|].
  exists [o]. split; [reflexivity|]. now constructor.
Qed.

End Kept.

(** ** The targets of the assignments of a page load *)

Module Frame.
Import ProjectDetailApp Kept.
#[local] Open Scope list_scope.

(** X18. Every assignment of a page load goes to one of the elements with
    ids projectTitle, projectArtist, projectYear, artistWikidata,
    workWikidata, viewOnWikidata, loadingSpinner and projectContent (or to
    the document title): those made by [init] and the flows it awaits, and
    those of the display tasks that the flows leave pending. *)
Theorem page_load_assignments (net : network) (urlParams : URLSearchParams) (st : state) :
  let targets := ["projectTitle"; "projectArtist"; "projectYear"; "artistWikidata";
                  "workWikidata"; "viewOnWikidata"; "loadingSpinner"; "projectContent"] in
  let st' := snd (page_load net urlParams st) in
  (exists assigned,
     written st' = written st ++ assigned
     /\ Forall (fun id => In id targets) assigned)
  /\ (exists tasks,
        pending st' = pending st ++ tasks
        /\ Forall (fun o => Forall (fun a => In (fst a) targets) (assigns o)) tasks).
Proof.
  cbv zeta. unfold page_load.
  refine (proj1 (keeps_init frame frame_refl frame_trans _ _
                   (fun id => In id page_targets) _ _ targets_of _ _ _
                   displayArtistData_targets displayWorkData_targets
                   net (constructor urlParams) st)).
  - intros msg s. now apply frame_same.
  - intros s r s0. now apply frame_same.
  - intros t s. now apply frame_same.
  - intros f s. now apply frame_same.
  - intros o s Ho. now apply frame_pending.
  - intros id e s Hin. now apply frame_element.
  - auto.
Qed.

End Frame.

(** ** The requests of a run *)

Module Requests.
Import WikidataAPI Client ProjectDetailApp.
#[local] Open Scope list_scope.






(** The request [getEntity] makes for an id: none when the id cannot be
    written into the address. *)
Definition entity_request (s : site) (entityId : value) : list (site * request) :=
  match to_js_string entityId with
  | Ok key => [(s, ReqEntity key)]
  | Throw _ => []
  end.

Lemma getEntity_run net s entityId st :
  exists v st',
    getEntity net s entityId st = (Ok v, st')
    /\ requests st' = requests st ++ entity_request s entityId.
Proof.
  unfold entity_request. destruct (to_js_string entityId) as [key|e] eqn:Hk.
  - now apply Failures.getEntity_asked.
  - rewrite (Failures.getEntity_unasked net s entityId e st Hk).
    do 2 eexists. split; [reflexivity|]. cbn. now rewrite app_nil_r.
Qed.

Lemma getEntityLabelById_run net s entityId language st :
  exists v st',
    getEntityLabelById net s entityId language st = (Ok v, st')
    /\ requests st' = requests st ++ entity_request s entityId.
Proof.
  unfold getEntityLabelById, bind.
  destruct (getEntity_run net s entityId st) as (entity & st' & -> & H).
  destruct (getLabel entity language); cbn;
    do 2 eexists; (split; [reflexivity|exact H]).
Qed.










Lemma assign_requests h upd st : requests (snd (assign h upd st)) = requests st.
Proof.
  unfold assign. destruct h as [id|]; [|reflexivity].
  destruct (dom st id); reflexivity.
Qed.








(** *** What a computation adds to a log *)

Section Log.
Context {X : Type}.
Variable log : state -> list X.

(** [m] adds to the log a list that satisfies [P]. *)
Definition adds {A} (m : M A) (P : list X -> Prop) : Prop :=
  forall st, exists new, log (snd (m st)) = log st ++ new /\ P new.


Lemma adds_weaken {A} (m : M A) (P Q : list X -> Prop) :
  adds m P -> (forall new, P new -> Q new) -> adds m Q.
Proof. intros H HPQ st. destruct (H st) as (new & E & HP). eauto. Qed.

Lemma adds_seq {A B} (m : M A) (k : A -> M B) (P1 P2 : list X -> Prop) :
  adds m P1 -> (forall a, adds (k a) P2) ->
  adds (bind m k) (fun new => P1 new \/ exists n1 n2, new = n1 ++ n2 /\ P1 n1 /\ P2 n2).
Proof.
  intros Hm Hk st. unfold bind. destruct (Hm st) as (n1 & E1 & H1).
  destruct (m st) as [[a|e] st1]; cbn in *.
  - destruct (Hk a st1) as (n2 & E2 & H2). exists (n1 ++ n2). split.
    + now rewrite E2, E1, app_assoc.
    + right. eauto.
  - exists n1. auto.
Qed.

Lemma adds_after_silent {A B} (m : M A) (k : A -> M B) (P : list X -> Prop) :
  adds m (eq []) -> (forall a, adds (k a) P) -> P [] -> adds (bind m k) P.
Proof.
  intros Hm Hk Hnil. eapply adds_weaken; [apply (adds_seq _ _ _ _ Hm Hk)|].
  intros new [<- | (n1 & n2 & -> & <- & H)]; auto.
Qed.



Lemma adds_nothing {A} (m : M A) :
  (forall st, log (snd (m st)) = log st) -> adds m (eq []).
Proof. intros H st. exists []. now rewrite H, app_nil_r. Qed.




End Log.

(** *** The requests of the flows that [init] awaits *)

Abbreviation emits := (adds requests).

Lemma emits_lift {A} (r : res A) : emits (lift r) (eq []).
Proof. now apply adds_nothing. Qed.

Lemma emits_getElementById id : emits (getElementById id) (eq []).
Proof. now apply adds_nothing. Qed.

Lemma emits_assign h upd : emits (assign h upd) (eq []).
Proof. apply adds_nothing. apply assign_requests. Qed.

Lemma emits_set_title t : emits (set_title t) (eq []).
Proof. now apply adds_nothing. Qed.

Lemma emits_console msg : emits (console_error msg) (eq []).
Proof. now apply adds_nothing. Qed.

Lemma emits_detached f first (task : M unit) : emits (detached f first task) (eq []).
Proof. apply adds_nothing. intros st. unfold detached. now destruct first. Qed.

Ltac silence :=
  repeat first
    [ apply emits_lift | apply emits_getElementById | apply emits_assign
    | apply emits_set_title | apply emits_console | apply emits_detached
    | apply adds_after_silent; [ | intros ? | reflexivity ] ].

Lemma emits_showLoading : emits showLoading (eq []).
Proof. unfold showLoading. silence. Qed.

Lemma emits_hideLoading : emits hideLoading (eq []).
Proof. unfold hideLoading. silence. Qed.

Lemma emits_showContent : emits showContent (eq []).
Proof. unfold showContent. silence. Qed.

Lemma emits_showError : emits showError (eq []).
Proof. unfold showError. silence. Qed.


(** The requests of one awaited flow: none when it does not run, the search
    alone, or the search and then the entity lookup. *)
Inductive flow_requests (f : flow) : list (site * request) -> Prop :=
| no_request : flow_requests f []
| search_only term : flow_requests f [(SearchSite f, ReqSearch term "it")]
| search_then_entity term k :
    flow_requests f [(SearchSite f, ReqSearch term "it"); (EntitySite f, ReqEntity k)].



Lemma flow_requests_of f term id new :
  eq [(SearchSite f, ReqSearch term "it")] new
  \/ (exists n1 n2, new = n1 ++ n2 /\ eq [(SearchSite f, ReqSearch term "it")] n1
                    /\ (n2 = [] \/ n2 = entity_request (EntitySite f) id)) ->
  flow_requests f new.
Proof.
  intros [<- | (n1 & n2 & -> & <- & [-> | ->])]; cbn; try constructor.
  unfold entity_request. destruct (to_js_string id); constructor.
Qed.






(** *** The tasks the flows leave pending *)

Abbreviation spawns := (adds pending).
















(** *** Counting *)








End Requests.

(** ** The two data flows *)

Module Flows.
Import WikidataAPI Client ProjectDetailApp.
#[local] Open Scope list_scope.

Definition same_dom (st st' : state) : Prop := dom st' = dom st.

Lemma same_dom_trans a b c : same_dom a b -> same_dom b c -> same_dom a c.
Proof. unfold same_dom. congruence. Qed.


Lemma dom_getEntity net s entityId st :
  dom (snd (getEntity net s entityId st)) = dom st.
Proof.
  apply (Kept.keeps_getEntity same_dom (fun _ => eq_refl) same_dom_trans
           (fun _ _ => eq_refl) (fun _ _ _ => eq_refl) net s entityId st).
Qed.









Lemma page_update_same id e p : page_update id e p id = Some e.
Proof. unfold page_update. now rewrite String.eqb_refl. Qed.

(** An assignment through a handle for another element. *)
Lemma assign_elsewhere h upd st k :
  h <> Some k -> dom (snd (assign h upd st)) k = dom st k.
Proof.
  intros Hne. unfold assign. destruct h as [id|]; [|reflexivity].
  destruct (dom st id); [|reflexivity]. cbn. unfold page_update.
  destruct (String.eqb k id) eqn:E; [|reflexivity].
  apply String.eqb_eq in E. subst. congruence.
Qed.

(** [getElementById] of an element of the page, then an assignment. *)
Lemma write_present id upd st e :
  dom st id = Some e ->
  bind (getElementById id) (fun h => assign h upd) st
  = (Ok tt, Kept.with_element id (upd e) st).
Proof.
  intros H. unfold bind, getElementById, assign. rewrite H. cbn. now rewrite H.
Qed.

(** *** What a display task does when it runs on *)





(** *** The page once the pending tasks have finished *)






(** The end of [loadWorkData]: the link to the entity page is enabled. *)
Definition enable_link (hit : value) : M unit :=
  bind (getElementById "viewOnWikidata") (fun wikidataLink =>
  bind (lift (get_prop hit "id")) (fun id' =>
  bind (lift (to_js_string id')) (fun address =>
  bind (assign wikidataLink
          (set_href ("https://www.wikidata.org/wiki/" ++ address)%string))
       (fun _ => assign wikidataLink (set_disabled false))))).



Section Flow.
Variable net : network.
Variable this : app.






End Flow.






(** C6. A page load in which the artist is found and the lookup of the
    entity fails: reading the label of [null] throws inside
    [displayArtistData], whose promise [loadArtistData] does not await; the
    rejection stays unhandled, [init] ends without entering its [catch], the
    console has no 'Error initializing app:' and the content container does
    not get the error panel. *)
Theorem rendering_error_escapes_catch :
  let out := page_load Samples.net_lost_entity [] (Samples.start Samples.full_page) in
  fst out = Ok tt
  /\ unhandled (snd out) = [Artist]
  /\ console (snd out) = ["Error fetching Wikidata entity:"]
  /\ option_map innerHTML (dom (snd out) "projectContent") = Some "..."
  /\ option_map innerHTML (dom (snd out) "projectContent") <> Some error_html
  /\ option_map innerHTML (dom (snd out) "artistWikidata") = Some "...".
Proof.
  cbv zeta. repeat split; try (vm_compute; reflexivity).
  vm_compute. discriminate.
Qed.

(** An error thrown in what [init] awaits does reach the [catch]: with no
    [search] list in the reply, reading [length] throws in [loadArtistData],
    and the error panel is shown. *)
Example awaited_error_reaches_catch :
  let out := page_load Samples.net_no_list [] (Samples.start Samples.full_page) in
  fst out = Ok tt
  /\ console (snd out) = ["Error initializing app:"]
  /\ option_map display (dom (snd out) "loadingSpinner") = Some "none"
  /\ option_map display (dom (snd out) "projectContent") = Some "block"
  /\ option_map innerHTML (dom (snd out) "projectContent") = Some error_html.
Proof. cbv zeta. repeat split; vm_compute; reflexivity. Qed.

End Flows.

(** ** Technique and material *)

Module Materials.
Import WikidataAPI Client ProjectDetailApp.
#[local] Open Scope list_scope.

(** The reading of C10 under which the two fields agree in every display
    data of a work. *)
Definition tecnica_is_materiale : Prop :=
  forall net work st data,
    fst (work_data net work st) = Ok data ->
    lookup "Tecnica" data = lookup "Materiale" data.

(** The material is an entity; each field starts its own label lookup, and
    the second one fails: the field falls back to the id. *)
Lemma second_lookup_fails : ~ tecnica_is_materiale.
Proof.
  intros H.
  specialize (H Samples.net_second_lookup_fails Samples.albero
                (Samples.start Samples.full_page) _ eq_refl).
  vm_compute in H. discriminate H.
Qed.

Lemma getEntity_value net s s' entityId st st' :
  (forall key, entity_answer net s key = entity_answer net s' key) ->
  fst (getEntity net s entityId st) = fst (getEntity net s' entityId st').
Proof.
  intros H. unfold getEntity.
  destruct (to_js_string entityId) as [key|]; [|reflexivity].
  unfold bind, issue, console_error, ret. cbn. rewrite H.
  destruct (entity_answer net s' key) as [data|]; [|reflexivity].
  destruct (get_prop data "entities") as [entities|]; cbn; [|reflexivity].
  now destruct (get_prop entities key).
Qed.

Lemma getEntityLabelById_value net s s' entityId language st st' :
  (forall key, entity_answer net s key = entity_answer net s' key) ->
  fst (getEntityLabelById net s entityId language st)
  = fst (getEntityLabelById net s' entityId language st').
Proof.
  intros H. pose proof (getEntity_value net s s' entityId st st' H) as Hv.
  unfold getEntityLabelById, bind.
  destruct (Failures.getEntity_returns net s entityId st) as (v & st1 & E).
  destruct (Failures.getEntity_returns net s' entityId st') as (v' & st1' & E').
  rewrite E, E' in *. cbn in Hv. injection Hv as ->.
  now destruct (getLabel v' language).
Qed.

(** What [getPropertyValue] returns depends on the place of the call only
    through the replies given there. *)
Lemma getPropertyValue_value net s s' entity propertyId language st st' :
  (forall id, entity_answer net s id = entity_answer net s' id) ->
  fst (getPropertyValue net s entity propertyId language st)
  = fst (getPropertyValue net s' entity propertyId language st').
Proof.
  intros H.
  unfold getPropertyValue, value_of_claim, value_of_datavalue, bind, lift, ret. cbn.
  repeat match goal with
         | |- context [match get_prop ?v ?k with _ => _ end] =>
             destruct (get_prop v k); cbn; try reflexivity
         | |- context [if truthy ?v then _ else _] =>
             destruct (truthy v) eqn:?; cbn; try reflexivity
         | |- context [if is_string ?v then _ else _] =>
             destruct (is_string v); cbn; try reflexivity
         end.
  all: match goal with
       | |- context [getEntityLabelById _ _ ?i ?l _] =>
           pose proof (getEntityLabelById_value net s s' i l st st' H) as Hv;
           destruct (Requests.getEntityLabelById_run net s i l st) as (v & st1 & E & _);
           destruct (Requests.getEntityLabelById_run net s' i l st') as (v' & st1' & E' & _);
           rewrite E, E' in *; cbn in Hv; injection Hv as ->; reflexivity
       end.
Qed.

(** When no promise is made, the place of the call does not matter at all. *)
Lemma getPropertyValue_plain net s s' entity propertyId language st st' v :
  fst (getPropertyValue net s entity propertyId language st) = Ok (Plain v) ->
  fst (getPropertyValue net s' entity propertyId language st') = Ok (Plain v).
Proof.
  unfold getPropertyValue, value_of_claim, value_of_datavalue, bind, lift, ret. cbn.
  repeat match goal with
         | |- context [match get_prop ?v ?k with _ => _ end] =>
             destruct (get_prop v k); cbn; try (intros H; exact H)
         | |- context [if truthy ?v then _ else _] =>
             destruct (truthy v) eqn:?; cbn; try (intros H; exact H)
         | |- context [if is_string ?v then _ else _] =>
             destruct (is_string v); cbn; try (intros H; exact H)
         end.
  all: match goal with
       | |- context [getEntityLabelById _ _ ?i ?l _] =>
           destruct (Requests.getEntityLabelById_run net s i l st) as (w & st1 & E & _);
           rewrite E; cbn; intros H; discriminate H
       end.
Qed.

Lemma bind_ok {A B} (m : M A) (k : A -> M B) st b :
  fst (bind m k st) = Ok b ->
  exists a, fst (m st) = Ok a /\ fst (k a (snd (m st))) = Ok b.
Proof.
  unfold bind. destruct (m st) as [[a|e] st1]; cbn; [eauto|discriminate].
Qed.

Lemma field_value_value net f field entity propertyId st v :
  fst (field_value net f field entity propertyId st) = Ok v ->
  exists p, fst (getPropertyValue net (LabelSite f field) entity propertyId
                   default_language st) = Ok p
            /\ v = await p.
Proof.
  intros H. apply bind_ok in H as (p & Hp & H). cbn in H. injection H as <-. eauto.
Qed.

(** C10 (amended). In the display data of a work, 'Tecnica' and 'Materiale'
    are equal whenever the two label lookups they may start are answered
    alike, and in particular whenever the value read from P186 is not a
    reference to another entity (no lookup is started then). *)
Theorem tecnica_materiale (net : network) (work : value) (st : state)
    (data : list (string * value)) :
  fst (work_data net work st) = Ok data ->
  (forall id, entity_answer net (LabelSite Work "Tecnica") id
              = entity_answer net (LabelSite Work "Materiale") id)
  \/ (exists v st0,
        fst (getPropertyValue net (LabelSite Work "Tecnica") work "P186" "it" st0)
        = Ok (Plain v)) ->
  lookup "Tecnica" data = lookup "Materiale" data.
Proof.
  intros H Hnet. unfold work_data in H.
  apply bind_ok in H as (titolo & _ & H).
  apply bind_ok in H as (descrizione & _ & H).
  apply bind_ok in H as (creazione & _ & H).
  apply bind_ok in H as (tecnica & Ht & H).
  apply bind_ok in H as (materiale & Hm & H).
  apply bind_ok in H as (dimensioni & _ & H).
  apply bind_ok in H as (genere & _ & H).
  cbn in H. injection H as <-.
  apply field_value_value in Ht as (pt & Ht & ->).
  apply field_value_value in Hm as (pm & Hm & ->).
  change (Some (await pt) = Some (await pm)). f_equal. f_equal.
  unfold default_language in *.
  match type of Ht with
  | fst (getPropertyValue _ _ _ _ _ ?sa) = _ =>
      match type of Hm with
      | fst (getPropertyValue _ _ _ _ _ ?sb) = _ =>
          destruct Hnet as [Hsame | (v & st0 & Hplain)];
          [ pose proof (getPropertyValue_value net (LabelSite Work "Tecnica")
                          (LabelSite Work "Materiale") work "P186" "it" sa sb Hsame)
          | pose proof (getPropertyValue_plain net _ (LabelSite Work "Tecnica")
                          work "P186" "it" st0 sa v Hplain);
            pose proof (getPropertyValue_plain net _ (LabelSite Work "Materiale")
                          work "P186" "it" st0 sb v Hplain) ]
      end
  end; congruence.
Qed.

End Materials.

(** * The properties at sample inputs *)

Module Witnesses.
Import WikidataAPI Client ProjectDetailApp Samples.
#[local] Open Scope list_scope.

Definition penone_fields : list (string * value) :=
  match penone with
  | VObj fields => fields
  | _ => []
  end.



Lemma getPropertyValue_first_claim_only_witness :
  getPropertyValue net_birth_place (LabelSite Artist "Luogo di nascita")
    (VObj [("claims", VObj [("P19", VArr [entity_claim "Q19484"; entity_claim "Q220"])])])
    "P19" "it" (start full_page)
  = getPropertyValue net_birth_place (LabelSite Artist "Luogo di nascita")
      penone "P19" "it" (start full_page).
Proof.
  apply (getPropertyValue_first_claim_only net_birth_place
           (LabelSite Artist "Luogo di nascita")
           [("claims", VObj [("P19", VArr [entity_claim "Q19484"; entity_claim "Q220"])])]
           penone_fields
           [("P19", VArr [entity_claim "Q19484"; entity_claim "Q220"])]
           [("P569", VArr [time_claim "+1947-04-03T00:00:00Z"]);
            ("P19", VArr [entity_claim "Q19484"])]
           [entity_claim "Q19484"; entity_claim "Q220"]
           [entity_claim "Q19484"]
           "P19" "it" (start full_page)); reflexivity.
Defined.

Lemma formatWikidataDate_cases_witness :
  formatWikidataDate (VStr "+1962-00-00T00:00:00Z") = Ok (VStr "1962")
  /\ formatWikidataDate (VStr "nato il +1947-04-03") = Ok (VStr "1947")
  /\ formatWikidataDate (VStr "circa 1962") = Ok (VStr "circa 1962").
Proof.
  destruct DateFormat.formatWikidataDate_cases as (H1 & H2 & _ & _ & _ & H6).
  split; [|split].
  - apply H1. exists "00", "00", "T00:00:00Z". repeat split; reflexivity.
  - apply (H2 "nato il +1947-04-03" 8).
    + exists "04", "03", "". repeat split; reflexivity.
    + intros j y Hj Hocc. apply DateFormat.match_here_complete in Hocc.
      do 8 (destruct j as [|j]; [discriminate Hocc|]). lia.
  - apply H6.
    + discriminate.
    + apply DateFormat.regex_search_none. reflexivity.
Defined.

Lemma constructor_parameters_witness :
  artistName (constructor [("artist", "Marisa Merz"); ("year", "")]) = "Marisa Merz"
  /\ workName (constructor [("artist", "Marisa Merz"); ("year", "")]) = "Albero della Vita"
  /\ year (constructor [("artist", "Marisa Merz"); ("year", "")]) = "1962".
Proof.
  destruct (Params.constructor_parameters [("artist", "Marisa Merz"); ("year", "")])
    as (_ & Hw & Hy & Ha & _).
  split; [|split].
  - apply Ha; [reflexivity|discriminate].
  - apply Hw. left. reflexivity.
  - apply Hy. right. reflexivity.
Defined.





Definition albero_data : list (string * value) :=
  Eval vm_compute in
    match fst (work_data net_birth_place albero (start full_page)) with
    | Ok data => data
    | Throw _ => []
    end.

Lemma tecnica_materiale_witness :
  lookup "Tecnica" albero_data = lookup "Materiale" albero_data.
Proof.
  apply (Materials.tecnica_materiale net_birth_place albero (start full_page) albero_data).
  - vm_compute. reflexivity.
  - left. intros id. reflexivity.
Defined.

End Witnesses.

(** * Further properties of the client *)

Module ClientFacts.
Import WikidataAPI Client ProjectDetailApp.
#[local] Open Scope list_scope.

(** The value of the first claim of a property, along the path
    [claims[propertyId][0].mainsnak.datavalue.value] of an entity document. *)
Definition first_value (fields : list (string * value)) (propertyId : string) (v : value)
  : Prop :=
  exists claims claim more mainsnak datavalue,
    lookup "claims" fields = Some (VObj claims)
    /\ lookup propertyId claims = Some (VArr (VObj claim :: more))
    /\ lookup "mainsnak" claim = Some (VObj mainsnak)
    /\ lookup "datavalue" mainsnak = Some (VObj datavalue)
    /\ lookup "value" datavalue = Some v.

(** The first of [text], [amount] and [time] that is truthy, or the fixed
    text. *)
Definition pick (o : list (string * value)) : value :=
  match find truthy [member "text" o; member "amount" o; member "time" o] with
  | Some x => x
  | None => VStr "Non specificato"
  end.

Lemma getPropertyValue_first_value net s fields propertyId language v :
  first_value fields propertyId v ->
  getPropertyValue net s (VObj fields) propertyId language
  = value_of_datavalue net s v language.
Proof.
  intros (claims & claim & more & mainsnak & datavalue & Hc & Hl & Hm & Hd & Hv).
  rewrite (getPropertyValue_first_claim _ _ _ _ _ _ _ Hc Hl). cbn [nth].
  unfold value_of_claim, bind, lift. cbn. rewrite Hm. cbn. rewrite Hd. cbn.
  now rewrite Hv.
Qed.

Lemma getEntity_failed net s entityId key st :
  to_js_string entityId = Ok key ->
  entity_answer net s key = None ->
  getEntity net s entityId st
  = (Ok VNull, Failures.logged "Error fetching Wikidata entity:" s (ReqEntity key) st).
Proof.
  intros Hk Ha. unfold getEntity. rewrite Hk.
  unfold bind, issue, ret, console_error. cbn. now rewrite Ha.
Qed.

(** With an [entities] map in the body, [getEntity] returns
    [data.entities[entityId]]. *)
Lemma getEntity_found net s entityId key st data entities entity :
  to_js_string entityId = Ok key ->
  entity_answer net s key = Some (VObj data) ->
  lookup "entities" data = Some (VObj entities) ->
  get_prop (VObj entities) key = Ok entity ->
  getEntity net s entityId st = (Ok entity, Kept.with_request s (ReqEntity key) st).
Proof.
  intros Hk Ha He Hg. unfold getEntity. rewrite Hk.
  unfold bind, issue, ret. cbn [fst snd]. cbv beta iota.
  rewrite Ha. rewrite (get_prop_own _ _ _ He). cbn [res_bind]. now rewrite Hg.
Qed.

Lemma getEntity_no_entities net s entityId key st data :
  to_js_string entityId = Ok key ->
  entity_answer net s key = Some (VObj data) ->
  lookup "entities" data = None ->
  getEntity net s entityId st
  = (Ok VNull, Failures.logged "Error fetching Wikidata entity:" s (ReqEntity key) st).
Proof.
  intros Hk Ha He. unfold getEntity. rewrite Hk.
  unfold bind, issue, ret, console_error. cbn [fst snd]. cbv beta iota.
  rewrite Ha. rewrite (get_prop_none _ _ He eq_refl). reflexivity.
Qed.

(** X1. [getEntity] for an id that the address can hold, on a body with an
    [entities] map: it returns what the map holds under the id; when the
    map holds nothing there, [undefined], unless the id is the name of a
    member that every object inherits, which is then what comes back; one
    request, nothing logged.  On a body without [entities] it returns
    [null] and logs. *)
Theorem getEntity_bodies (net : network) (s : site) (entityId : value) (key : string)
    (st : state) (data : list (string * value)) :
  to_js_string entityId = Ok key ->
  entity_answer net s key = Some (VObj data) ->
  (forall entities entity,
     lookup "entities" data = Some (VObj entities) ->
     lookup key entities = Some entity ->
     getEntity net s entityId st = (Ok entity, Kept.with_request s (ReqEntity key) st))
  /\ (forall entities,
        lookup "entities" data = Some (VObj entities) ->
        lookup key entities = None ->
        getEntity net s entityId st
        = (Ok (if inherited key then VNative else VUndef),
           Kept.with_request s (ReqEntity key) st))
  /\ (lookup "entities" data = None ->
      getEntity net s entityId st
      = (Ok VNull, Failures.logged "Error fetching Wikidata entity:" s (ReqEntity key) st)).
Proof.
  intros Hk Ha. split; [|split].
  - intros entities entity He Hl.
    apply (getEntity_found _ _ _ _ _ _ _ _ Hk Ha He). now apply get_prop_own.
  - intros entities He Hl.
    apply (getEntity_found _ _ _ _ _ _ _ _ Hk Ha He).
    destruct (inherited key) eqn:Hi.
    + now apply get_prop_inherited.
    + now apply get_prop_none.
  - now apply getEntity_no_entities.
Qed.

(** X2. [getEntityLabelById] never throws.  For an id that the address can
    hold: when the request fails it gives back the id it was asked for,
    after the failure was logged; when the body holds nothing under the id
    it gives back the id as well, unless the id names a member that every
    object inherits, which has no labels; when the body holds an entity
    document, the outcome is that of [getLabel]: the label in the language,
    or 'Informazione non disponibile'.  For an id that the address cannot
    hold it gives back the id after [getEntity] has logged, and no request
    is made. *)
Theorem getEntityLabelById_cases (net : network) (s : site) (entityId : value)
    (language : string) (st : state) :
  (forall key,
     to_js_string entityId = Ok key ->
     (entity_answer net s key = None ->
      getEntityLabelById net s entityId language st
      = (Ok entityId, Failures.logged "Error fetching Wikidata entity:" s (ReqEntity key) st))
     /\ (forall data entities,
           entity_answer net s key = Some (VObj data) ->
           lookup "entities" data = Some (VObj entities) ->
           (lookup key entities = None ->
            getEntityLabelById net s entityId language st
            = (Ok (if inherited key then VStr "Informazione non disponibile" else entityId),
               Kept.with_request s (ReqEntity key) st))
           /\ (forall fields l,
                 lookup key entities = Some (VObj fields) ->
                 holds (lookup "labels" fields) language (VObj l) ->
                 getEntityLabelById net s entityId language st
                 = (Ok (member "value" l), Kept.with_request s (ReqEntity key) st))
           /\ (forall fields,
                 lookup key entities = Some (VObj fields) ->
                 lacks (lookup "labels" fields) language ->
                 getEntityLabelById net s entityId language st
                 = (Ok (VStr "Informazione non disponibile"),
                    Kept.with_request s (ReqEntity key) st))))
  /\ (forall e,
        to_js_string entityId = Throw e ->
        getEntityLabelById net s entityId language st
        = (Ok entityId, Failures.noted "Error fetching Wikidata entity:" st)).
Proof.
  split.
  - intros key Hk. split.
    + intros Ha. unfold getEntityLabelById, bind.
      now rewrite (getEntity_failed _ _ _ _ _ Hk Ha).
    + intros data entities Ha He.
      unfold getEntityLabelById, bind.
      split; [|split].
      * intros Hl. destruct (inherited key) eqn:Hi.
        -- rewrite (getEntity_found _ _ _ _ _ _ _ _ Hk Ha He
                      (get_prop_inherited _ _ Hl Hi)). reflexivity.
        -- rewrite (getEntity_found _ _ _ _ _ _ _ _ Hk Ha He
                      (get_prop_none _ _ Hl Hi)). reflexivity.
      * intros fields l Hf Hl.
        rewrite (getEntity_found _ _ _ _ _ _ _ _ Hk Ha He (get_prop_own _ _ _ Hf)).
        now rewrite (getLabel_present _ _ _ Hl).
      * intros fields Hf Hl.
        rewrite (getEntity_found _ _ _ _ _ _ _ _ Hk Ha He (get_prop_own _ _ _ Hf)).
        now rewrite (getLabel_absent _ _ Hl).
  - intros e Hk. unfold getEntityLabelById, bind.
    now rewrite (Failures.getEntity_unasked _ _ _ _ _ Hk).
Qed.

(** The label found for an entity that another entity refers to. *)
Lemma getEntityLabelById_found net s q language st data entities target l :
  entity_answer net s q = Some (VObj data) ->
  lookup "entities" data = Some (VObj entities) ->
  lookup q entities = Some (VObj target) ->
  holds (lookup "labels" target) language (VObj l) ->
  getEntityLabelById net s (VStr q) language st
  = (Ok (member "value" l), Kept.with_request s (ReqEntity q) st).
Proof.
  intros Ha He Ht Hl. unfold getEntityLabelById, bind.
  rewrite (getEntity_found net s (VStr q) q st data entities (VObj target) eq_refl Ha He
             (get_prop_own _ _ _ Ht)).
  now rewrite (getLabel_present _ _ _ Hl).
Qed.

(** X3. A property whose first claim refers to another entity: the id of
    that entity is looked up with one request, and [getPropertyValue]
    returns the promise of its label in the language. *)
Theorem getPropertyValue_entity_reference (net : network) (s : site) (st : state)
    (fields o data entities target l : list (string * value))
    (propertyId language q : string) :
  first_value fields propertyId (VObj o) ->
  lookup "id" o = Some (VStr q) ->
  q <> "" ->
  entity_answer net s q = Some (VObj data) ->
  lookup "entities" data = Some (VObj entities) ->
  lookup q entities = Some (VObj target) ->
  holds (lookup "labels" target) language (VObj l) ->
  getPropertyValue net s (VObj fields) propertyId language st
  = (Ok (Promised (member "value" l)), Kept.with_request s (ReqEntity q) st).
Proof.
  intros Hv Hid Hq Ha He Ht Hl.
  rewrite (getPropertyValue_first_value _ _ _ _ _ _ Hv).
  unfold value_of_datavalue, bind, lift. cbn. rewrite Hid. cbn.
  destruct (String.eqb q "") eqn:E; [apply String.eqb_eq in E; contradiction|].
  cbn. now rewrite (getEntityLabelById_found _ _ _ _ _ _ _ _ _ Ha He Ht Hl).
Qed.

(** X4. A property whose first claim does not refer to another entity is
    read without any request: a string value comes back as it is (the empty
    string too); of an object value, the first truthy one of [text],
    [amount] and [time], and 'Non specificato' when there is none. *)
Theorem getPropertyValue_plain_values (net : network) (s : site) (st : state)
    (fields : list (string * value)) (propertyId language : string) (v : value) :
  first_value fields propertyId v ->
  (forall text, v = VStr text ->
     getPropertyValue net s (VObj fields) propertyId language st
     = (Ok (Plain (VStr text)), st))
  /\ (forall o, v = VObj o -> truthy (member "id" o) = false ->
        getPropertyValue net s (VObj fields) propertyId language st
        = (Ok (Plain (pick o)), st)).
Proof.
  intros Hv. rewrite (getPropertyValue_first_value _ _ _ _ _ _ Hv). split.
  - intros text ->. unfold value_of_datavalue, bind, lift. cbn.
    destruct (index_of_key "id") eqn:E; [discriminate E|]. reflexivity.
  - intros o -> Hid. unfold value_of_datavalue, bind, lift, ret, pick. cbn.
    fold (member "id" o). rewrite Hid.
    fold (member "text" o) (member "amount" o) (member "time" o).
    destruct (truthy (member "text" o)); [reflexivity|].
    destruct (truthy (member "amount" o)); [reflexivity|].
    destruct (truthy (member "time" o)); reflexivity.
Qed.

Lemma formatWikidataDate_shape t year :
  DateFormat.date_shape t year -> formatWikidataDate (VStr t) = Ok (VStr year).
Proof.
  intros Hs.
  assert (E : regex_search t = Some year).
  { apply (DateFormat.regex_search_leftmost t 0 year); [exact Hs|].
    intros j y Hj. lia. }
  unfold formatWikidataDate. cbn [truthy].
  destruct (String.eqb t "") eqn:Et.
  - apply String.eqb_eq in Et. subst t. discriminate E.
  - cbn. now rewrite E.
Qed.

(** X5. The date entry of the display data, [formatWikidataDate] applied to
    what [getPropertyValue] returns.  A missing property shows 'Non
    specificato' (the text of [getPropertyValue], which
    [formatWikidataDate] leaves as it is), not 'Data non disponibile'; a
    time value of the shape '+YYYY-MM-DD...' shows its year; a value that
    refers to another entity makes the entry throw, since the promise has no
    [match]. *)
Theorem date_entry (net : network) (f : flow) (field : string) (st : state)
    (fields : list (string * value)) (propertyId : string) :
  (lacks (lookup "claims" fields) propertyId ->
   field_date net f field (VObj fields) propertyId st
   = (Ok (VStr "Non specificato"), st))
  /\ (forall o t year,
        first_value fields propertyId (VObj o) ->
        truthy (member "id" o) = false ->
        truthy (member "text" o) = false ->
        truthy (member "amount" o) = false ->
        member "time" o = VStr t ->
        DateFormat.date_shape t year ->
        field_date net f field (VObj fields) propertyId st = (Ok (VStr year), st))
  /\ (forall o,
        first_value fields propertyId (VObj o) ->
        truthy (member "id" o) = true ->
        fst (field_date net f field (VObj fields) propertyId st) = Throw TypeError).
Proof.
  split; [|split].
  - intros Hl. unfold field_date, bind.
    rewrite (getPropertyValue_no_property _ _ _ _ _ _ Hl). reflexivity.
  - intros o t year Hv Hid Htext Hamount Htime Hshape.
    unfold field_date, bind.
    rewrite (getPropertyValue_first_value _ _ _ _ _ _ Hv).
    unfold value_of_datavalue, bind, lift, ret. cbn.
    fold (member "id" o). rewrite Hid.
    fold (member "text" o) (member "amount" o) (member "time" o).
    rewrite Htext, Hamount, Htime.
    pose proof (formatWikidataDate_shape _ _ Hshape) as Hf.
    assert (Ht : truthy (VStr t) = true).
    { destruct t; [|reflexivity].
      destruct Hshape as (m & d & rest & Hs & _). discriminate Hs. }
    rewrite Ht. cbn [formatWikidataDate_of]. now rewrite Hf.
  - intros o Hv Hid. unfold field_date, bind.
    rewrite (getPropertyValue_first_value _ _ _ _ _ _ Hv).
    unfold value_of_datavalue, bind, lift. cbn.
    fold (member "id" o). rewrite Hid.
    destruct (Requests.getEntityLabelById_run net (LabelSite f field) (member "id" o)
                default_language st) as (v & st' & -> & _).
    reflexivity.
Qed.

Lemma regex_search_year s year :
  regex_search s = Some year -> DateFormat.digits 4 year.
Proof.
  intros H. destruct (DateFormat.regex_search_found _ _ H) as (i & Hocc & _).
  destruct Hocc as (m & d & rest & _ & Hy & _). exact Hy.
Qed.

(** X6. On [null], [undefined] and strings [formatWikidataDate] does not
    throw and gives a string, and formatting its result again changes
    nothing: a year has no place for the pattern, and the fixed text does not
    contain it. *)
Theorem formatWikidataDate_idempotent (dateString : value) :
  dateString = VNull \/ dateString = VUndef \/ (exists s, dateString = VStr s) ->
  exists text,
    formatWikidataDate dateString = Ok (VStr text)
    /\ formatWikidataDate (VStr text) = Ok (VStr text).
Proof.
  intros [-> | [-> | (s & ->)]].
  - exists "Data non disponibile". split; reflexivity.
  - exists "Data non disponibile". split; reflexivity.
  - unfold formatWikidataDate at 1. cbn [truthy].
    destruct (String.eqb s "") eqn:Es; cbn.
    + exists "Data non disponibile". split; reflexivity.
    + destruct (regex_search s) as [year|] eqn:E.
      * exists year. split; [reflexivity|].
        destruct (regex_search_year _ _ E) as [Hlen _].
        do 4 (destruct year as [|? year]; [discriminate Hlen|]).
        destruct year; [reflexivity|discriminate Hlen].
      * exists s. split; [reflexivity|].
        unfold formatWikidataDate. cbn [truthy]. rewrite Es. cbn. now rewrite E.
Qed.

Lemma searchEntities_list net s term hits st :
  search_answer net s term = SearchList hits ->
  searchEntities net s term st
  = (Ok (Some hits), Kept.with_request s (ReqSearch term "it") st).
Proof.
  intros H. unfold searchEntities, bind, issue, ret. cbn. now rewrite H.
Qed.

(** X7. The artist is found but the request for the entity fails:
    [getEntity] gives [null], [displayArtistData] throws on its first read
    and nobody awaits it.  [loadArtistData] still ends normally; the page
    is left as it was, the two requests are the only ones, the failure of
    the request is the only console entry, one rejection stays unhandled
    and no task is left pending. *)
Theorem loadArtistData_lost_entity (net : network) (this : app) (st : state)
    (hit id : value) (key : string) (more : list value) :
  search_answer net (SearchSite Artist) (artistName this) = SearchList (hit :: more) ->
  get_prop hit "id" = Ok id ->
  to_js_string id = Ok key ->
  entity_answer net (EntitySite Artist) key = None ->
  loadArtistData net this st
  = (Ok tt,
     mkState (dom st) (title st)
       (console st ++ ["Error fetching Wikidata entity:"])
       (requests st ++ [(SearchSite Artist, ReqSearch (artistName this) "it");
                        (EntitySite Artist, ReqEntity key)])
       (written st) (unhandled st ++ [Artist]) (pending st)).
Proof.
  intros Hs Hid Hk Ha.
  unfold loadArtistData, bind. rewrite (searchEntities_list _ _ _ _ _ Hs).
  unfold lift. cbn [first_hit]. rewrite Hid. cbv beta iota.
  rewrite (getEntity_failed _ _ _ _ _ Hk Ha).
  unfold detached, displayArtistData_first. cbn. now rewrite <- app_assoc.
Qed.

End ClientFacts.

(** * Further properties of the page controller *)

Module Late.
Import WikidataAPI Client ProjectDetailApp.
#[local] Open Scope list_scope.

Section Targets.
(** As in [Kept], with the elements that may be assigned to left open. *)
Variable R : state -> state -> Prop.
Hypothesis R_refl : forall st, R st st.
Hypothesis R_trans : forall a b c, R a b -> R b c -> R a c.
Hypothesis R_console : forall msg st, R st (Kept.with_console msg st).
Hypothesis R_request : forall s r st, R st (Kept.with_request s r st).
Variable allowed : string -> Prop.
Hypothesis R_element : forall id e st, allowed id -> R st (Kept.with_element id e st).

Lemma keeps_assign_to h id upd :
  h = None \/ h = Some id -> allowed id -> Kept.keeps R (assign h upd) (fun _ => True).
Proof.
  intros [-> | ->] Hin st; cbn.
  - split; [apply R_refl|trivial].
  - destruct (dom st id); cbn.
    + split; [apply R_element; auto|trivial].
    + split; [apply R_refl|trivial].
Qed.

Lemma keeps_write_to id upd :
  allowed id ->
  Kept.keeps R (bind (getElementById id) (fun h => assign h upd)) (fun _ => True).
Proof.
  intros Hin. eapply Kept.keeps_bind; [exact R_trans|apply Kept.keeps_getElementById; auto|].
  intros h Hh. now apply keeps_assign_to with (id := id).
Qed.

Lemma keeps_display id (data : M (list (string * value))) :
  allowed id ->
  Kept.keeps R data (fun _ => True) ->
  Kept.keeps R (bind (getElementById id) (fun container =>
                bind data (fun d => renderMetadata container d))) (fun _ => True).
Proof.
  intros Hin Hdata.
  eapply Kept.keeps_bind; [exact R_trans|apply Kept.keeps_getElementById; auto|].
  intros h Hh.
  eapply Kept.keeps_bind; [exact R_trans|exact Hdata|].
  intros d _. unfold renderMetadata.
  eapply Kept.keeps_bind; [exact R_trans|apply Kept.keeps_lift; auto|].
  intros html _. now apply keeps_assign_to with (id := id).
Qed.

Lemma displayArtistData_keeps net artist :
  allowed "artistWikidata" -> Kept.keeps R (displayArtistData net artist) (fun _ => True).
Proof.
  intros H. apply keeps_display; [exact H|]. apply Kept.keeps_artist_data; auto.
Qed.

Lemma displayWorkData_keeps net work :
  allowed "workWikidata" -> Kept.keeps R (displayWorkData net work) (fun _ => True).
Proof.
  intros H. apply keeps_display; [exact H|]. apply Kept.keeps_work_data; auto.
Qed.

(** The tasks that may be left pending. *)
Variable expected : outcome -> Prop.
Hypothesis R_unhandled : forall f st, R st (Kept.with_unhandled f st).
Hypothesis R_pending : forall o st, expected o -> R st (Kept.with_pending o st).

Lemma keeps_detached_task f first (task : M unit) :
  (forall p, expected (run_apart f p task)) ->
  Kept.keeps R (detached f first task) (fun _ : unit => True).
Proof.
  intros H st. unfold detached. destruct first; cbn.
  - split; [|trivial]. now apply R_pending.
  - split; [|trivial]. apply R_unhandled.
Qed.

Hypothesis artist_container : allowed "artistWikidata".
Hypothesis artist_task :
  forall net artist p, expected (run_apart Artist p (displayArtistData net artist)).

Lemma artist_flow_keeps net this :
  Kept.keeps R (loadArtistData net this) (fun _ => True).
Proof.
  unfold loadArtistData.
  eapply Kept.keeps_bind; [exact R_trans|apply Kept.keeps_searchEntities; auto|].
  intros results _.
  eapply Kept.keeps_bind; [exact R_trans|apply Kept.keeps_lift; auto|].
  intros [hit|] _.
  - eapply Kept.keeps_bind; [exact R_trans|apply Kept.keeps_lift; auto|].
    intros id _.
    eapply Kept.keeps_bind; [exact R_trans|apply Kept.keeps_getEntity; auto|].
    intros entity _. apply keeps_detached_task. apply artist_task.
  - now apply keeps_write_to.
Qed.

Hypothesis work_container : allowed "workWikidata".
Hypothesis work_link : allowed "viewOnWikidata".
Hypothesis work_task :
  forall net work p, expected (run_apart Work p (displayWorkData net work)).

Lemma work_flow_keeps net this :
  Kept.keeps R (loadWorkData net this) (fun _ => True).
Proof.
  unfold loadWorkData.
  eapply Kept.keeps_bind; [exact R_trans|apply Kept.keeps_searchEntities; auto|].
  intros results _.
  eapply Kept.keeps_bind; [exact R_trans|apply Kept.keeps_lift; auto|].
  intros [hit|] _.
  - eapply Kept.keeps_bind; [exact R_trans|apply Kept.keeps_lift; auto|].
    intros id _.
    eapply Kept.keeps_bind; [exact R_trans|apply Kept.keeps_getEntity; auto|].
    intros entity _.
    eapply Kept.keeps_bind; [exact R_trans| |].
    + apply keeps_detached_task. apply work_task.
    + intros _ _.
      eapply Kept.keeps_bind; [exact R_trans|apply Kept.keeps_getElementById; auto|].
      intros h Hh.
      eapply Kept.keeps_bind; [exact R_trans|apply Kept.keeps_lift; auto|].
      intros id' _.
      eapply Kept.keeps_bind; [exact R_trans|apply Kept.keeps_lift; auto|].
      intros address _.
      eapply Kept.keeps_bind;
        [exact R_trans|now apply keeps_assign_to with (id := "viewOnWikidata")|].
      intros _ _. now apply keeps_assign_to with (id := "viewOnWikidata").
  - now apply keeps_write_to.
Qed.

End Targets.

(** Outside [ids] the cells of the page are the same, and so is the
    document title. *)
Definition touches (ids : list string) (st st' : state) : Prop :=
  (forall k, ~ In k ids -> dom st' k = dom st k) /\ title st' = title st.

Lemma touches_refl ids st : touches ids st st.
Proof. now split. Qed.

Lemma touches_trans ids a b c : touches ids a b -> touches ids b c -> touches ids a c.
Proof.
  intros [H1 T1] [H2 T2]. split; [|congruence].
  intros k Hk. now rewrite H2, H1.
Qed.

Lemma touches_element ids id e st : In id ids -> touches ids st (Kept.with_element id e st).
Proof.
  intros Hin. split; [|reflexivity]. intros k Hk. cbn. unfold page_update.
  destruct (String.eqb k id) eqn:E; [|reflexivity].
  apply String.eqb_eq in E. subst. contradiction.
Qed.

Lemma loadArtistData_touches net this st :
  touches ["artistWikidata"] st (snd (loadArtistData net this st)).
Proof.
  apply (artist_flow_keeps (touches ["artistWikidata"])
           (touches_refl _) (touches_trans _)
           (fun _ _ => touches_refl _ _) (fun _ _ _ => touches_refl _ _)
           (fun id => In id ["artistWikidata"])
           (fun id e s H => touches_element _ id e s H)
           (fun _ => True)
           (fun _ _ => touches_refl _ _) (fun _ _ _ => touches_refl _ _)
           (or_introl eq_refl) (fun _ _ _ => I) net this st).
Qed.

Lemma loadWorkData_touches net this st :
  touches ["workWikidata"; "viewOnWikidata"] st (snd (loadWorkData net this st)).
Proof.
  apply (work_flow_keeps (touches ["workWikidata"; "viewOnWikidata"])
           (touches_refl _) (touches_trans _)
           (fun _ _ => touches_refl _ _) (fun _ _ _ => touches_refl _ _)
           (fun id => In id ["workWikidata"; "viewOnWikidata"])
           (fun id e s H => touches_element _ id e s H)
           (fun _ => True)
           (fun _ _ => touches_refl _ _) (fun _ _ _ => touches_refl _ _)
           (or_introl eq_refl) (or_intror (or_introl eq_refl)) (fun _ _ _ => I)
           net this st).
Qed.

(** *** The assignments of a flow and of the task it leaves pending *)

(** What was assigned since [st] went to elements among [ids]. *)
Definition assigned_within (ids : list string) (st st' : state) : Prop :=
  exists w, written st' = written st ++ w /\ Forall (fun id => In id ids) w.

Lemma assigned_within_refl ids st : assigned_within ids st st.
Proof. exists []. now rewrite app_nil_r. Qed.

Lemma assigned_within_trans ids a b c :
  assigned_within ids a b -> assigned_within ids b c -> assigned_within ids a c.
Proof.
  intros (w1 & E1 & F1) (w2 & E2 & F2). exists (w1 ++ w2). split.
  - now rewrite E2, E1, app_assoc.
  - apply Forall_app. now split.
Qed.

Lemma assigned_within_element ids id e st :
  In id ids -> assigned_within ids st (Kept.with_element id e st).
Proof. intros Hin. exists [id]. split; [reflexivity|]. now constructor. Qed.

(** The assignments of a task go to elements among [ids]. *)
Definition task_within (ids : list string) (o : outcome) : Prop :=
  Forall (fun a => In (fst a) ids) (assigns o).

Lemma run_apart_within ids f p (task : M unit) :
  assigned_within ids (apart p) (snd (task (apart p))) ->
  task_within ids (run_apart f p task).
Proof.
  intros (w & E & F). unfold task_within, run_apart.
  destruct (task (apart p)) as [r st]. cbn in *. rewrite E. clear E.
  induction F as [|id w Hid _ IH]; cbn; [constructor|].
  apply Forall_app. split; [|exact IH].
  unfold innerHTML_of. destruct (dom st id); constructor; [exact Hid|constructor].
Qed.

Lemma displayArtistData_within net artist p :
  task_within ["artistWikidata"] (run_apart Artist p (displayArtistData net artist)).
Proof.
  apply run_apart_within.
  apply (displayArtistData_keeps (assigned_within ["artistWikidata"])
           (assigned_within_refl _) (assigned_within_trans _)
           (fun _ _ => assigned_within_refl _ _) (fun _ _ _ => assigned_within_refl _ _)
           (fun id => In id ["artistWikidata"])
           (fun id e s H => assigned_within_element _ id e s H)
           net artist (or_introl eq_refl) (apart p)).
Qed.

Lemma displayWorkData_within net work p :
  task_within ["workWikidata"] (run_apart Work p (displayWorkData net work)).
Proof.
  apply run_apart_within.
  apply (displayWorkData_keeps (assigned_within ["workWikidata"])
           (assigned_within_refl _) (assigned_within_trans _)
           (fun _ _ => assigned_within_refl _ _) (fun _ _ _ => assigned_within_refl _ _)
           (fun id => In id ["workWikidata"])
           (fun id e s H => assigned_within_element _ id e s H)
           net work (or_introl eq_refl) (apart p)).
Qed.

(** The assignments of a flow go to [ids], those of the tasks it leaves
    pending to [held]; the document title is not assigned. *)
Definition flow_within (ids held : list string) (st st' : state) : Prop :=
  assigned_within ids st st'
  /\ (exists tasks, pending st' = pending st ++ tasks /\ Forall (task_within held) tasks)
  /\ title st' = title st.

Lemma flow_within_refl ids held st : flow_within ids held st st.
Proof.
  split; [apply assigned_within_refl|]. split; [|reflexivity].
  exists []. now rewrite app_nil_r.
Qed.

Lemma flow_within_trans ids held a b c :
  flow_within ids held a b -> flow_within ids held b c -> flow_within ids held a c.
Proof.
  intros (W1 & (t1 & E1 & F1) & T1) (W2 & (t2 & E2 & F2) & T2).
  split; [eapply assigned_within_trans; eauto|]. split; [|congruence].
  exists (t1 ++ t2). split.
  - now rewrite E2, E1, app_assoc.
  - apply Forall_app. now split.
Qed.

Lemma flow_within_element ids held id e st :
  In id ids -> flow_within ids held st (Kept.with_element id e st).
Proof.
  intros Hin. split; [now apply assigned_within_element|]. split; [|reflexivity].
  exists []. cbn. now rewrite app_nil_r.
Qed.

Lemma flow_within_pending ids held o st :
  task_within held o -> flow_within ids held st (Kept.with_pending o st).
Proof.
  intros Ho. split; [exists []; cbn; now rewrite app_nil_r|]. split; [|reflexivity].
  exists [o]. split; [reflexivity|]. now constructor.
Qed.

Lemma loadArtistData_within net this st :
  flow_within ["artistWikidata"] ["artistWikidata"] st (snd (loadArtistData net this st)).
Proof.
  apply (artist_flow_keeps (flow_within ["artistWikidata"] ["artistWikidata"])
           (flow_within_refl _ _) (flow_within_trans _ _)
           (fun _ _ => flow_within_refl _ _ _) (fun _ _ _ => flow_within_refl _ _ _)
           (fun id => In id ["artistWikidata"])
           (fun id e s H => flow_within_element _ _ id e s H)
           (task_within ["artistWikidata"])
           (fun _ _ => flow_within_refl _ _ _)
           (fun o s H => flow_within_pending _ _ o s H)
           (or_introl eq_refl) displayArtistData_within net this st).
Qed.

Lemma loadWorkData_within net this st :
  flow_within ["workWikidata"; "viewOnWikidata"] ["workWikidata"] st
    (snd (loadWorkData net this st)).
Proof.
  apply (work_flow_keeps (flow_within ["workWikidata"; "viewOnWikidata"] ["workWikidata"])
           (flow_within_refl _ _) (flow_within_trans _ _)
           (fun _ _ => flow_within_refl _ _ _) (fun _ _ _ => flow_within_refl _ _ _)
           (fun id => In id ["workWikidata"; "viewOnWikidata"])
           (fun id e s H => flow_within_element _ _ id e s H)
           (task_within ["workWikidata"])
           (fun _ _ => flow_within_refl _ _ _)
           (fun o s H => flow_within_pending _ _ o s H)
           (or_introl eq_refl) (or_intror (or_introl eq_refl)) displayWorkData_within
           net this st).
Qed.

(** X8. Each data flow assigns to its own elements only.  The assignments
    of [loadArtistData] all go to artistWikidata, and so do those of the
    display task it may leave pending; the assignments of [loadWorkData] go
    to workWikidata and viewOnWikidata, those of its display task to
    workWikidata; neither assigns the document title. *)
Theorem flows_touch_their_elements (net : network) (this : app) (st : state) :
  let artist := snd (loadArtistData net this st) in
  let work := snd (loadWorkData net this st) in
  (exists assigned tasks,
     written artist = written st ++ assigned
     /\ Forall (fun id => id = "artistWikidata") assigned
     /\ pending artist = pending st ++ tasks
     /\ Forall (fun o => Forall (fun a => fst a = "artistWikidata") (assigns o)) tasks)
  /\ title artist = title st
  /\ (exists assigned tasks,
        written work = written st ++ assigned
        /\ Forall (fun id => id = "workWikidata" \/ id = "viewOnWikidata") assigned
        /\ pending work = pending st ++ tasks
        /\ Forall (fun o => Forall (fun a => fst a = "workWikidata") (assigns o)) tasks)
  /\ title work = title st.
Proof.
  cbv zeta.
  destruct (loadArtistData_within net this st) as ((wa & Ea & Fa) & (ta & Pa & Ga) & Ta).
  destruct (loadWorkData_within net this st) as ((ww & Ew & Fw) & (tw & Pw & Gw) & Tw).
  split; [|split; [exact Ta|split; [|exact Tw]]].
  - exists wa, ta. split; [exact Ea|]. split; [|split; [exact Pa|]].
    + eapply Forall_impl; [|exact Fa]. cbn. intros id [H | []]. now symmetry.
    + eapply Forall_impl; [|exact Ga]. intros o Ho.
      eapply Forall_impl; [|exact Ho]. cbn. intros a [H | []]. now symmetry.
  - exists ww, tw. split; [exact Ew|]. split; [|split; [exact Pw|]].
    + eapply Forall_impl; [|exact Fw]. cbn. intros id [H | [H | []]]; auto.
    + eapply Forall_impl; [|exact Gw]. intros o Ho.
      eapply Forall_impl; [|exact Ho]. cbn. intros a [H | []]. now symmetry.
Qed.

End Late.

Module InitFacts.
Import WikidataAPI Client ProjectDetailApp.
#[local] Open Scope list_scope.

Lemma dom_with_element_other k id e st :
  String.eqb k id = false -> dom (Kept.with_element id e st) k = dom st k.
Proof. intros H. cbn. unfold page_update. now rewrite H. Qed.

Lemma dom_with_element_same id e st : dom (Kept.with_element id e st) id = Some e.
Proof. cbn. apply Flows.page_update_same. Qed.

(** [document.getElementById(id).property = ...], then what follows. *)
Lemma step_present {A} id upd (k : unit -> M A) st e :
  dom st id = Some e ->
  bind (getElementById id) (fun h => bind (assign h upd) k) st
  = k tt (Kept.with_element id (upd e) st).
Proof.
  intros H. unfold bind at 1. unfold getElementById. rewrite H.
  unfold bind, assign. now rewrite H.
Qed.

Lemma step_missing {A} id upd (k : unit -> M A) st :
  dom st id = None ->
  bind (getElementById id) (fun h => bind (assign h upd) k) st = (Throw TypeError, st).
Proof.
  intros H. unfold bind at 1. unfold getElementById. rewrite H. reflexivity.
Qed.

(** The page once the spinner is shown. *)
Definition loading (sp ct : element) (st : state) : state :=
  Kept.with_element "projectContent" (set_display "none" ct)
    (Kept.with_element "loadingSpinner" (set_display "block" sp) st).

Lemma showLoading_run st sp ct :
  dom st "loadingSpinner" = Some sp ->
  dom st "projectContent" = Some ct ->
  showLoading st = (Ok tt, loading sp ct st).
Proof.
  intros Hs Hc. unfold showLoading. rewrite (step_present _ _ _ _ sp Hs).
  apply Flows.write_present.
  rewrite dom_with_element_other by reflexivity. exact Hc.
Qed.

(** The page once the spinner is hidden and the content shown. *)
Definition revealed (sp ct : element) (st : state) : state :=
  Kept.with_element "projectContent" (set_display "block" ct)
    (Kept.with_element "loadingSpinner" (set_display "none" sp) st).

Lemma reveal_run st sp ct :
  dom st "loadingSpinner" = Some sp ->
  dom st "projectContent" = Some ct ->
  bind hideLoading (fun _ => showContent) st = (Ok tt, revealed sp ct st).
Proof.
  intros Hs Hc. unfold bind at 1. unfold hideLoading.
  rewrite (Flows.write_present _ _ _ sp Hs). unfold showContent.
  apply Flows.write_present.
  rewrite dom_with_element_other by reflexivity. exact Hc.
Qed.

(** The [catch] of [init]. *)
Definition init_handler : exn -> M unit :=
  fun _ =>
    bind (console_error msg_init) (fun _ =>
    bind hideLoading (fun _ =>
    bind showContent (fun _ => showError))).

(** The page once the [catch] has run. *)
Definition caught (sp ct : element) (st : state) : state :=
  Kept.with_element "projectContent" (set_innerHTML error_html (set_display "block" ct))
    (revealed sp ct (Kept.with_console msg_init st)).

Lemma init_handler_run e st sp ct :
  dom st "loadingSpinner" = Some sp ->
  dom st "projectContent" = Some ct ->
  init_handler e st = (Ok tt, caught sp ct st).
Proof.
  intros Hs Hc. unfold init_handler. unfold bind at 1. cbn [console_error].
  change (mkState (dom st) (title st) (console st ++ [msg_init]) (requests st)
            (written st) (unhandled st) (pending st)) with (Kept.with_console msg_init st).
  unfold bind at 1. unfold hideLoading.
  rewrite (Flows.write_present _ _ (Kept.with_console msg_init st) sp Hs).
  unfold bind. unfold showContent.
  rewrite (Flows.write_present _ _ _ ct)
    by (rewrite dom_with_element_other by reflexivity; exact Hc).
  unfold showError. apply Flows.write_present.
  apply dom_with_element_same.
Qed.

(** What [init] awaits inside its [try], after the three header fields. *)
Definition load_both (net : network) (this : app) : M unit :=
  bind (loadArtistData net this) (fun _ =>
  bind (loadWorkData net this) (fun _ =>
  bind hideLoading (fun _ => showContent))).

(** The page once the header fields and the document title are written. *)
Definition headed (this : app) (t a y : element) (st : state) : state :=
  Kept.with_title (workName this ++ " - " ++ artistName this ++ " | Biennale Eco Archive")
    (Kept.with_element "projectYear" (set_textContent (year this) y)
       (Kept.with_element "projectArtist" (set_textContent (artistName this) a)
          (Kept.with_element "projectTitle" (set_textContent (workName this) t) st))).

Lemma init_with_header net this st sp ct t a y :
  dom st "loadingSpinner" = Some sp ->
  dom st "projectContent" = Some ct ->
  dom st "projectTitle" = Some t ->
  dom st "projectArtist" = Some a ->
  dom st "projectYear" = Some y ->
  init net this st
  = try_catch (load_both net this) init_handler (headed this t a y (loading sp ct st)).
Proof.
  intros Hs Hc Ht Ha Hy. unfold init. unfold bind at 1.
  rewrite (showLoading_run _ _ _ Hs Hc). unfold try_catch.
  rewrite (step_present _ _ _ _ t)
    by (unfold loading; repeat rewrite dom_with_element_other by reflexivity; exact Ht).
  rewrite (step_present _ _ _ _ a)
    by (unfold loading; repeat rewrite dom_with_element_other by reflexivity; exact Ha).
  rewrite (step_present _ _ _ _ y)
    by (unfold loading; repeat rewrite dom_with_element_other by reflexivity; exact Hy).
  reflexivity.
Qed.

Definition late_targets : list string :=
  ["artistWikidata"; "workWikidata"; "viewOnWikidata"].

Lemma touches_more ids ids' st st' :
  (forall k, In k ids -> In k ids') -> Late.touches ids st st' -> Late.touches ids' st st'.
Proof. intros Hin [H T]. split; [|exact T]. intros k Hk. apply H. auto. Qed.

(** The two flows and the end of [init], from a page with the spinner and
    the content container: [init] ends normally, either past the [try] or
    through the [catch], on a page that the flows changed at their own
    elements only. *)
Lemma load_both_outcome net this st sp ct :
  dom st "loadingSpinner" = Some sp ->
  dom st "projectContent" = Some ct ->
  exists sx (passed : bool),
    Late.touches late_targets st sx
    /\ (exists w, written sx = written st ++ w)
    /\ try_catch (load_both net this) init_handler st
       = (Ok tt, if passed then revealed sp ct sx else caught sp ct sx).
Proof.
  intros Hs Hc. unfold try_catch, load_both. unfold bind at 1.
  pose proof (Late.loadArtistData_touches net this st) as Ta.
  destruct (Late.loadArtistData_within net this st) as ((wa & Wa & _) & _).
  destruct (loadArtistData net this st) as [[[]|e] sa]; cbn [snd] in Ta, Wa.
  - unfold bind at 1.
    pose proof (Late.loadWorkData_touches net this sa) as Tw.
    destruct (Late.loadWorkData_within net this sa) as ((ww & Ww & _) & _).
    assert (Wx : exists w, written (snd (loadWorkData net this sa)) = written st ++ w).
    { exists (wa ++ ww). now rewrite Ww, Wa, app_assoc. }
    destruct (loadWorkData net this sa) as [[[]|e] sw]; cbn [snd] in Tw, Wx.
    + assert (T : Late.touches late_targets st sw).
      { eapply Late.touches_trans; eapply touches_more; try eassumption;
          cbn; tauto. }
      exists sw, true. split; [exact T|]. split; [exact Wx|].
      rewrite (reveal_run sw sp ct); [reflexivity| |].
      * rewrite (proj1 T) by (cbn; intuition discriminate). exact Hs.
      * rewrite (proj1 T) by (cbn; intuition discriminate). exact Hc.
    + assert (T : Late.touches late_targets st sw).
      { eapply Late.touches_trans; eapply touches_more; try eassumption;
          cbn; tauto. }
      exists sw, false. split; [exact T|]. split; [exact Wx|].
      apply init_handler_run.
      * rewrite (proj1 T) by (cbn; intuition discriminate). exact Hs.
      * rewrite (proj1 T) by (cbn; intuition discriminate). exact Hc.
  - assert (T : Late.touches late_targets st sa).
    { eapply touches_more; try eassumption; cbn; tauto. }
    exists sa, false. split; [exact T|]. split; [eauto|].
    apply init_handler_run.
    + rewrite (proj1 T) by (cbn; intuition discriminate). exact Hs.
    + rewrite (proj1 T) by (cbn; intuition discriminate). exact Hc.
Qed.

(** A header field cannot be written: the [catch] runs on the page as it
    then is. *)
Lemma init_header_missing net this st sp ct :
  dom st "loadingSpinner" = Some sp ->
  dom st "projectContent" = Some ct ->
  dom st "projectTitle" = None \/ dom st "projectArtist" = None
  \/ dom st "projectYear" = None ->
  exists sx,
    dom sx "loadingSpinner" = Some (set_display "block" sp)
    /\ dom sx "projectContent" = Some (set_display "none" ct)
    /\ requests sx = requests st /\ console sx = console st
    /\ init net this st
       = (Ok tt, caught (set_display "block" sp) (set_display "none" ct) sx).
Proof.
  intros Hs Hc Hmiss. unfold init. unfold bind at 1.
  rewrite (showLoading_run _ _ _ Hs Hc). unfold try_catch.
  assert (Ds : forall s0, dom s0 "loadingSpinner" = Some (set_display "block" sp) ->
                          dom s0 "projectContent" = Some (set_display "none" ct) ->
                          requests s0 = requests st -> console s0 = console st ->
                          forall e, exists sx,
                            dom sx "loadingSpinner" = Some (set_display "block" sp)
                            /\ dom sx "projectContent" = Some (set_display "none" ct)
                            /\ requests sx = requests st /\ console sx = console st
                            /\ init_handler e s0
                               = (Ok tt, caught (set_display "block" sp)
                                           (set_display "none" ct) sx)).
  { intros s0 H1 H2 H3 H4 e. exists s0. repeat split; auto.
    now apply init_handler_run. }
  assert (L1 : dom (loading sp ct st) "loadingSpinner" = Some (set_display "block" sp)).
  { unfold loading. rewrite dom_with_element_other by reflexivity.
    apply dom_with_element_same. }
  assert (L2 : dom (loading sp ct st) "projectContent" = Some (set_display "none" ct)).
  { unfold loading. apply dom_with_element_same. }
  destruct (dom st "projectTitle") as [t|] eqn:Ht.
  - rewrite (step_present _ _ _ _ t)
      by (unfold loading; repeat rewrite dom_with_element_other by reflexivity; exact Ht).
    destruct (dom st "projectArtist") as [a|] eqn:Ha.
    + rewrite (step_present _ _ _ _ a)
        by (unfold loading; repeat rewrite dom_with_element_other by reflexivity;
            exact Ha).
      destruct (dom st "projectYear") as [y|] eqn:Hy.
      * exfalso. destruct Hmiss as [H | [H | H]]; discriminate H.
      * rewrite step_missing
          by (unfold loading; repeat rewrite dom_with_element_other by reflexivity;
              exact Hy).
        cbv beta iota. apply Ds with (e := TypeError); try reflexivity;
          repeat rewrite dom_with_element_other by reflexivity; assumption.
    + rewrite step_missing
        by (unfold loading; repeat rewrite dom_with_element_other by reflexivity;
            exact Ha).
      cbv beta iota. apply Ds with (e := TypeError); try reflexivity;
        repeat rewrite dom_with_element_other by reflexivity; assumption.
  - rewrite step_missing
      by (unfold loading; repeat rewrite dom_with_element_other by reflexivity;
          exact Ht).
    cbv beta iota. apply Ds with (e := TypeError); try reflexivity; assumption.
Qed.

Lemma revealed_spinner sp ct st :
  dom (revealed sp ct st) "loadingSpinner" = Some (set_display "none" sp).
Proof.
  unfold revealed. rewrite dom_with_element_other by reflexivity.
  apply dom_with_element_same.
Qed.

Lemma revealed_content sp ct st :
  dom (revealed sp ct st) "projectContent" = Some (set_display "block" ct).
Proof. unfold revealed. apply dom_with_element_same. Qed.

Lemma caught_spinner sp ct st :
  dom (caught sp ct st) "loadingSpinner" = Some (set_display "none" sp).
Proof.
  unfold caught. rewrite dom_with_element_other by reflexivity.
  apply revealed_spinner.
Qed.

Lemma caught_content sp ct st :
  dom (caught sp ct st) "projectContent"
  = Some (set_innerHTML error_html (set_display "block" ct)).
Proof. unfold caught. apply dom_with_element_same. Qed.

Lemma loading_spinner sp ct st :
  dom (loading sp ct st) "loadingSpinner" = Some (set_display "block" sp).
Proof.
  unfold loading. rewrite dom_with_element_other by reflexivity.
  apply dom_with_element_same.
Qed.

Lemma loading_content sp ct st :
  dom (loading sp ct st) "projectContent" = Some (set_display "none" ct).
Proof. unfold loading. apply dom_with_element_same. Qed.

Lemma headed_elsewhere this t a y st k :
  String.eqb k "projectYear" = false ->
  String.eqb k "projectArtist" = false ->
  String.eqb k "projectTitle" = false ->
  dom (headed this t a y st) k = dom st k.
Proof.
  intros H1 H2 H3. unfold headed. cbn [dom Kept.with_title].
  now rewrite !dom_with_element_other by assumption.
Qed.

(** The end of a page load on a page with the two containers: through the
    [try] or through the [catch]. *)
Lemma init_outcome net this st sp ct :
  dom st "loadingSpinner" = Some sp ->
  dom st "projectContent" = Some ct ->
  exists sx (passed : bool),
    init net this st
    = (Ok tt,
       if passed
       then revealed (set_display "block" sp) (set_display "none" ct) sx
       else caught (set_display "block" sp) (set_display "none" ct) sx).
Proof.
  intros Hs Hc.
  destruct (dom st "projectTitle") as [t|] eqn:Ht;
    [destruct (dom st "projectArtist") as [a|] eqn:Ha;
     [destruct (dom st "projectYear") as [y|] eqn:Hy|]|].
  - rewrite (init_with_header net this st sp ct t a y Hs Hc Ht Ha Hy).
    destruct (load_both_outcome net this (headed this t a y (loading sp ct st))
                (set_display "block" sp) (set_display "none" ct))
      as (sx & passed & _ & _ & E).
    + rewrite headed_elsewhere by reflexivity. apply loading_spinner.
    + rewrite headed_elsewhere by reflexivity. apply loading_content.
    + exists sx, passed. exact E.
  - destruct (init_header_missing net this st sp ct Hs Hc) as (sx & _ & _ & _ & _ & E);
      [auto|]. exists sx, false. exact E.
  - destruct (init_header_missing net this st sp ct Hs Hc) as (sx & _ & _ & _ & _ & E);
      [auto|]. exists sx, false. exact E.
  - destruct (init_header_missing net this st sp ct Hs Hc) as (sx & _ & _ & _ & _ & E);
      [auto|]. exists sx, false. exact E.
Qed.

(** X9. On a page that has the spinner and the content container, [init]
    never rejects, whatever the network answers and whatever else the page
    lacks; when it ends the spinner is hidden and the content container is
    shown. *)
Theorem init_reveals_content (net : network) (this : app) (st : state) :
  dom st "loadingSpinner" <> None ->
  dom st "projectContent" <> None ->
  let out := init net this st in
  fst out = Ok tt
  /\ option_map display (dom (snd out) "loadingSpinner") = Some "none"
  /\ option_map display (dom (snd out) "projectContent") = Some "block".
Proof.
  intros Hs Hc. cbv zeta.
  destruct (dom st "loadingSpinner") as [sp|] eqn:Es; [|contradiction].
  destruct (dom st "projectContent") as [ct|] eqn:Ec; [|contradiction].
  destruct (init_outcome net this st sp ct Es Ec) as (sx & [|] & ->); cbn [fst snd].
  - now rewrite revealed_spinner, revealed_content.
  - now rewrite caught_spinner, caught_content.
Qed.

Lemma write_missing id upd st :
  dom st id = None ->
  bind (getElementById id) (fun h => assign h upd) st = (Throw TypeError, st).
Proof.
  intros H. unfold bind, getElementById. rewrite H. reflexivity.
Qed.

(** X10. [showLoading] runs before the [try]: on a page without the
    spinner or without the content container [init] rejects with the
    [TypeError]; no request is made, nothing is logged, the document title
    and every element other than the spinner are untouched. *)
Theorem init_rejects_without_containers (net : network) (this : app) (st : state) :
  dom st "loadingSpinner" = None \/ dom st "projectContent" = None ->
  let out := init net this st in
  fst out = Throw TypeError
  /\ requests (snd out) = requests st
  /\ console (snd out) = console st
  /\ title (snd out) = title st
  /\ forall id, id <> "loadingSpinner" -> dom (snd out) id = dom st id.
Proof.
  intros H. cbv zeta.
  assert (E : exists sx,
             init net this st = (Throw TypeError, sx)
             /\ requests sx = requests st /\ console sx = console st
             /\ title sx = title st
             /\ forall id, id <> "loadingSpinner" -> dom sx id = dom st id).
  { unfold init. unfold bind at 1. unfold showLoading.
    destruct (dom st "loadingSpinner") as [sp|] eqn:Es.
    - destruct H as [H | H]; [discriminate H|].
      rewrite (step_present _ _ _ _ sp Es).
      rewrite write_missing by (rewrite dom_with_element_other by reflexivity; exact H).
      eexists. split; [reflexivity|]. do 3 (split; [reflexivity|]).
      intros id Hid. cbn. unfold page_update.
      destruct (String.eqb id "loadingSpinner") eqn:E; [|reflexivity].
      apply String.eqb_eq in E. contradiction.
    - rewrite (step_missing _ _ _ _ Es). exists st. now repeat split. }
  destruct E as (sx & -> & E). exact (conj eq_refl E).
Qed.

Lemma headed_title this t a y st :
  dom (headed this t a y st) "projectTitle" = Some (set_textContent (workName this) t).
Proof.
  unfold headed. cbn [dom Kept.with_title].
  rewrite !dom_with_element_other by reflexivity. apply dom_with_element_same.
Qed.

Lemma headed_artist this t a y st :
  dom (headed this t a y st) "projectArtist" = Some (set_textContent (artistName this) a).
Proof.
  unfold headed. cbn [dom Kept.with_title].
  rewrite dom_with_element_other by reflexivity. apply dom_with_element_same.
Qed.

Lemma headed_year this t a y st :
  dom (headed this t a y st) "projectYear" = Some (set_textContent (year this) y).
Proof. unfold headed. cbn [dom Kept.with_title]. apply dom_with_element_same. Qed.

Lemma outcome_elsewhere (passed : bool) sp ct sx k :
  String.eqb k "projectContent" = false ->
  String.eqb k "loadingSpinner" = false ->
  dom (if passed then revealed sp ct sx else caught sp ct sx) k = dom sx k.
Proof.
  intros H1 H2. destruct passed; unfold caught, revealed;
    now rewrite !dom_with_element_other by assumption.
Qed.

(** X11. On a page that has the two containers and the three header
    elements, the first assignments of a page load are those that show the
    spinner and hide the content, and then those of the name of the work,
    of the artist and of the year to projectTitle, projectArtist and
    projectYear; when the page load ends the document title is the one
    built from the names of the work and of the artist, whatever the
    network answers and whether or not the [catch] runs. *)
Theorem init_writes_header (net : network) (this : app) (st : state)
    (sp ct t a y : element) :
  dom st "loadingSpinner" = Some sp ->
  dom st "projectContent" = Some ct ->
  dom st "projectTitle" = Some t ->
  dom st "projectArtist" = Some a ->
  dom st "projectYear" = Some y ->
  let st' := snd (init net this st) in
  title st' = (workName this ++ " - " ++ artistName this ++ " | Biennale Eco Archive")%string
  /\ exists after,
       written st'
       = written st ++ ["loadingSpinner"; "projectContent"; "projectTitle"; "projectArtist";
                        "projectYear"] ++ after.
Proof.
  intros Hs Hc Ht Ha Hy. cbv zeta.
  rewrite (init_with_header net this st sp ct t a y Hs Hc Ht Ha Hy).
  set (s0 := headed this t a y (loading sp ct st)).
  assert (W0 : written s0
               = written st ++ ["loadingSpinner"; "projectContent"; "projectTitle";
                                "projectArtist"; "projectYear"]).
  { unfold s0. cbn. now repeat rewrite <- app_assoc. }
  destruct (load_both_outcome net this s0
              (set_display "block" sp) (set_display "none" ct))
    as (sx & passed & [D T] & Wx & ->).
  - unfold s0. rewrite headed_elsewhere by reflexivity. apply loading_spinner.
  - unfold s0. rewrite headed_elsewhere by reflexivity. apply loading_content.
  - cbn [snd]. destruct Wx as (w & Wx). split.
    + destruct passed; cbn; exact T.
    + destruct passed; cbn [written revealed caught Kept.with_element Kept.with_console];
        rewrite Wx, W0; eexists; repeat rewrite <- app_assoc; reflexivity.
Qed.

(** X12. On a page that has the two containers but lacks one of the three
    header elements, the assignment to it throws inside the [try]: the
    [catch] logs once and shows the error panel, and no request is ever
    made. *)
Theorem init_header_element_missing (net : network) (this : app) (st : state) :
  dom st "loadingSpinner" <> None ->
  dom st "projectContent" <> None ->
  dom st "projectTitle" = None \/ dom st "projectArtist" = None
  \/ dom st "projectYear" = None ->
  let out := init net this st in
  fst out = Ok tt
  /\ requests (snd out) = requests st
  /\ console (snd out) = console st ++ ["Error initializing app:"]
  /\ option_map innerHTML (dom (snd out) "projectContent") = Some error_html.
Proof.
  intros Hs Hc Hmiss. cbv zeta.
  destruct (dom st "loadingSpinner") as [sp|] eqn:Es; [|contradiction].
  destruct (dom st "projectContent") as [ct|] eqn:Ec; [|contradiction].
  destruct (init_header_missing net this st sp ct Es Ec Hmiss)
    as (sx & _ & _ & Hr & Hl & ->).
  cbn [fst snd]. rewrite caught_content. split; [reflexivity|].
  split; [exact Hr|]. split; [|reflexivity].
  cbn. now rewrite Hl.
Qed.

Lemma loadArtistData_no_list net this st :
  search_answer net (SearchSite Artist) (artistName this) = SearchNoList ->
  loadArtistData net this st
  = (Throw TypeError,
     Kept.with_request (SearchSite Artist) (ReqSearch (artistName this) "it") st).
Proof.
  intros H. unfold loadArtistData, bind, searchEntities, issue, ret. cbn.
  now rewrite H.
Qed.

Lemma load_both_no_list net this st sp ct :
  dom st "loadingSpinner" = Some sp ->
  dom st "projectContent" = Some ct ->
  search_answer net (SearchSite Artist) (artistName this) = SearchNoList ->
  try_catch (load_both net this) init_handler st
  = (Ok tt,
     caught sp ct
       (Kept.with_request (SearchSite Artist) (ReqSearch (artistName this) "it") st)).
Proof.
  intros Hs Hc Hsearch. unfold try_catch, load_both. unfold bind at 1.
  rewrite (loadArtistData_no_list _ _ _ Hsearch). cbv beta iota.
  apply init_handler_run; [exact Hs|exact Hc].
Qed.

(** X13. The reply to the artist search has no [search] list: reading its
    [length] throws in [loadArtistData]; the work flow is never started (the
    artist search is the only request), the [catch] logs once and shows the
    error panel. *)
Theorem init_artist_search_without_list (net : network) (this : app) (st : state)
    (sp ct t a y : element) :
  dom st "loadingSpinner" = Some sp ->
  dom st "projectContent" = Some ct ->
  dom st "projectTitle" = Some t ->
  dom st "projectArtist" = Some a ->
  dom st "projectYear" = Some y ->
  search_answer net (SearchSite Artist) (artistName this) = SearchNoList ->
  let out := init net this st in
  fst out = Ok tt
  /\ requests (snd out)
     = requests st ++ [(SearchSite Artist, ReqSearch (artistName this) "it")]
  /\ console (snd out) = console st ++ ["Error initializing app:"]
  /\ option_map innerHTML (dom (snd out) "projectContent") = Some error_html.
Proof.
  intros Hs Hc Ht Ha Hy Hsearch. cbv zeta.
  rewrite (init_with_header net this st sp ct t a y Hs Hc Ht Ha Hy).
  rewrite (load_both_no_list net this _ (set_display "block" sp) (set_display "none" ct)).
  - cbn [fst snd]. rewrite caught_content. repeat split; reflexivity.
  - rewrite headed_elsewhere by reflexivity. apply loading_spinner.
  - rewrite headed_elsewhere by reflexivity. apply loading_content.
  - exact Hsearch.
Qed.

(** A reply to a search on which the flow does not throw: a failure, or a
    list whose first hit, if any, is neither [null] nor [undefined]. *)
Definition usable (r : search_reply) : Prop :=
  match r with
  | SearchNoList => False
  | SearchList (VNull :: _) => False
  | SearchList (VUndef :: _) => False
  | _ => True
  end.

(** The id of the first hit, if there is one, can be written into an
    address. *)
Definition addressable (r : search_reply) : Prop :=
  match r with
  | SearchList (hit :: _) =>
      forall id, get_prop hit "id" = Ok id -> exists key, to_js_string id = Ok key
  | _ => True
  end.

Lemma get_prop_defined v k :
  v <> VNull -> v <> VUndef -> exists x, get_prop v k = Ok x.
Proof.
  intros H1 H2. destruct v; try contradiction; cbn; eauto.
  - destruct (String.eqb k "length"); [eauto|].
    destruct (index_of_key k) as [i|]; [|eauto].
    destruct (nth_error (utf16_units s) i); eauto.
  - destruct (String.eqb k "length"); [eauto|].
    destruct (index_of_key k); eauto.
Qed.

Lemma searchEntities_failed net s term st :
  search_answer net s term = SearchFailed ->
  searchEntities net s term st
  = (Ok (Some []), Failures.logged "Error searching Wikidata:" s (ReqSearch term "it") st).
Proof.
  intros H. unfold searchEntities, bind, issue, console_error, ret. cbn. now rewrite H.
Qed.

(** The call of a display task that nobody awaits returns at once and
    leaves the page and the logs of the flow as they are. *)
Lemma detached_run f first (task : M unit) st :
  exists st',
    detached f first task st = (Ok tt, st')
    /\ dom st' = dom st /\ console st' = console st /\ written st' = written st.
Proof. unfold detached. destruct first; eexists; repeat split. Qed.

Lemma loadArtistData_passes net this st :
  usable (search_answer net (SearchSite Artist) (artistName this)) ->
  dom st "artistWikidata" <> None ->
  fst (loadArtistData net this st) = Ok tt.
Proof.
  intros Hu Hc. destruct (dom st "artistWikidata") as [e|] eqn:E; [|contradiction].
  unfold loadArtistData. unfold bind at 1.
  destruct (search_answer net (SearchSite Artist) (artistName this))
    as [| |[|hit more]] eqn:Hs; cbn in Hu.
  - rewrite (searchEntities_failed _ _ _ _ Hs). unfold bind at 1, lift.
    cbn [first_hit]. cbv beta iota. unfold displayNoArtistData.
    rewrite (Flows.write_present _ _ _ e) by exact E. reflexivity.
  - contradiction.
  - rewrite (ClientFacts.searchEntities_list _ _ _ _ _ Hs). unfold bind at 1, lift.
    cbn [first_hit]. cbv beta iota. unfold displayNoArtistData.
    rewrite (Flows.write_present _ _ _ e) by exact E. reflexivity.
  - rewrite (ClientFacts.searchEntities_list _ _ _ _ _ Hs). unfold bind at 1, lift.
    cbn [first_hit]. cbv beta iota.
    destruct (get_prop_defined hit "id") as (id & Hid).
    + intros ->. exact Hu.
    + intros ->. exact Hu.
    + unfold bind at 1. rewrite Hid. unfold bind at 1.
      match goal with
      | |- context [getEntity ?n ?s ?i ?s0] =>
          destruct (Failures.getEntity_returns n s i s0) as (entity & s1 & ->)
      end.
      cbv beta iota.
      match goal with
      | |- context [detached ?f ?first ?task s1] =>
          destruct (detached_run f first task s1) as (s2 & -> & _)
      end.
      reflexivity.
Qed.

Lemma enable_link_run hit id key link st :
  dom st "viewOnWikidata" = Some link ->
  get_prop hit "id" = Ok id ->
  to_js_string id = Ok key ->
  Flows.enable_link hit st
  = (Ok tt,
     Kept.with_element "viewOnWikidata"
       (set_disabled false
          (set_href ("https://www.wikidata.org/wiki/" ++ key)%string link))
       (Kept.with_element "viewOnWikidata"
          (set_href ("https://www.wikidata.org/wiki/" ++ key)%string link) st)).
Proof.
  intros Hl Hid Hk. unfold Flows.enable_link, bind, getElementById, lift.
  rewrite Hl, Hid, Hk. unfold assign. rewrite Hl. cbn [dom].
  now rewrite Flows.page_update_same.
Qed.

Lemma enable_link_throws hit id e st :
  get_prop hit "id" = Ok id ->
  to_js_string id = Throw e ->
  Flows.enable_link hit st = (Throw e, st).
Proof.
  intros Hid Hk. unfold Flows.enable_link, bind, getElementById, lift.
  now rewrite Hid, Hk.
Qed.

(** [loadWorkData] when the search has a first hit: the entity is
    fetched, the display is started, and the link is enabled on the page
    as it was. *)
Lemma loadWorkData_hit net this st hit more id :
  search_answer net (SearchSite Work) (workName this ++ " " ++ artistName this)%string
  = SearchList (hit :: more) ->
  get_prop hit "id" = Ok id ->
  exists s2,
    dom s2 = dom st
    /\ loadWorkData net this st = Flows.enable_link hit s2.
Proof.
  intros Hs Hid.
  set (s0 := Kept.with_request (SearchSite Work)
               (ReqSearch (workName this ++ " " ++ artistName this)%string "it") st).
  pose proof (Flows.dom_getEntity net (EntitySite Work) id s0) as Hd.
  destruct (Failures.getEntity_returns net (EntitySite Work) id s0) as (entity & s1 & Hg).
  rewrite Hg in Hd. cbn [snd] in Hd.
  destruct (detached_run Work (displayWorkData_first entity) (displayWorkData net entity) s1)
    as (s2 & Hdet & D2 & _).
  exists s2. split; [now rewrite D2, Hd|].
  unfold loadWorkData. unfold bind at 1.
  rewrite (ClientFacts.searchEntities_list _ _ _ _ _ Hs). unfold bind at 1, lift.
  cbn [first_hit]. cbv beta iota. unfold bind at 1. rewrite Hid at 1.
  unfold bind at 1. fold s0. rewrite Hg. cbv beta iota. unfold bind at 1.
  rewrite Hdet. reflexivity.
Qed.

Lemma loadWorkData_passes net this st :
  usable (search_answer net (SearchSite Work)
            (workName this ++ " " ++ artistName this)%string) ->
  addressable (search_answer net (SearchSite Work)
                 (workName this ++ " " ++ artistName this)%string) ->
  dom st "workWikidata" <> None ->
  dom st "viewOnWikidata" <> None ->
  fst (loadWorkData net this st) = Ok tt.
Proof.
  intros Hu Had Hc Hl.
  destruct (dom st "workWikidata") as [e|] eqn:E; [|contradiction].
  destruct (dom st "viewOnWikidata") as [link|] eqn:El; [|contradiction].
  destruct (search_answer net (SearchSite Work)
              (workName this ++ " " ++ artistName this)%string)
    as [| |[|hit more]] eqn:Hs; cbn in Hu, Had.
  - unfold loadWorkData. unfold bind at 1.
    rewrite (searchEntities_failed _ _ _ _ Hs). unfold bind at 1, lift.
    cbn [first_hit]. cbv beta iota. unfold displayNoWorkData.
    rewrite (Flows.write_present _ _ _ e) by exact E. reflexivity.
  - contradiction.
  - unfold loadWorkData. unfold bind at 1.
    rewrite (ClientFacts.searchEntities_list _ _ _ _ _ Hs). unfold bind at 1, lift.
    cbn [first_hit]. cbv beta iota. unfold displayNoWorkData.
    rewrite (Flows.write_present _ _ _ e) by exact E. reflexivity.
  - destruct (get_prop_defined hit "id") as (id & Hid).
    + intros ->. exact Hu.
    + intros ->. exact Hu.
    + destruct (Had id Hid) as (key & Hk).
      destruct (loadWorkData_hit net this st hit more id Hs Hid) as (s2 & D2 & ->).
      rewrite (enable_link_run hit id key link); [reflexivity| |exact Hid|exact Hk].
      now rewrite D2.
Qed.

Lemma load_both_passes net this st sp ct :
  dom st "loadingSpinner" = Some sp ->
  dom st "projectContent" = Some ct ->
  fst (loadArtistData net this st) = Ok tt ->
  fst (loadWorkData net this (snd (loadArtistData net this st))) = Ok tt ->
  try_catch (load_both net this) init_handler st
  = (Ok tt, revealed sp ct (snd (loadWorkData net this (snd (loadArtistData net this st))))).
Proof.
  intros Hs Hc Ha Hw. unfold try_catch, load_both. unfold bind at 1.
  pose proof (Late.loadArtistData_touches net this st) as [Ta _].
  destruct (loadArtistData net this st) as [ra sa]. cbn [fst snd] in *. subst ra.
  unfold bind at 1.
  pose proof (Late.loadWorkData_touches net this sa) as [Tw _].
  destruct (loadWorkData net this sa) as [rw sw]. cbn [fst snd] in *. subst rw.
  rewrite (reveal_run sw sp ct); [reflexivity| |].
  - rewrite Tw, Ta by (cbn; intuition discriminate). exact Hs.
  - rewrite Tw, Ta by (cbn; intuition discriminate). exact Hc.
Qed.

(** *** What the flows log *)

(** The lines that the two endpoints log. *)
Definition client_message (msg : string) : Prop :=
  msg = "Error searching Wikidata:" \/ msg = "Error fetching Wikidata entity:".

Definition client_messages (new : list string) : Prop := Forall client_message new.

Lemma client_messages_app a b :
  client_messages a -> client_messages b -> client_messages (a ++ b).
Proof. intros Ha Hb. apply Forall_app. now split. Qed.

Lemma logs_quiet {A} (m : M A) :
  (forall st, console (snd (m st)) = console st) ->
  Requests.adds console m client_messages.
Proof.
  intros H. apply Requests.adds_weaken with (P := eq []).
  - now apply Requests.adds_nothing.
  - intros new <-. constructor.
Qed.

Lemma logs_bind {A B} (m : M A) (k : A -> M B) :
  Requests.adds console m client_messages ->
  (forall a, Requests.adds console (k a) client_messages) ->
  Requests.adds console (bind m k) client_messages.
Proof.
  intros Hm Hk. eapply Requests.adds_weaken; [apply (Requests.adds_seq _ _ _ _ _ Hm Hk)|].
  intros new [H | (n1 & n2 & -> & H1 & H2)]; [exact H|now apply client_messages_app].
Qed.

Lemma logs_searchEntities net s term :
  Requests.adds console (searchEntities net s term) client_messages.
Proof.
  intros st. unfold searchEntities, bind, issue, console_error, ret. cbn.
  destruct (search_answer net s term); cbn.
  - exists ["Error searching Wikidata:"]. split; [reflexivity|].
    constructor; [now left|constructor].
  - exists []. split; [now rewrite app_nil_r|constructor].
  - exists []. split; [now rewrite app_nil_r|constructor].
Qed.

Lemma logs_getEntity net s id :
  Requests.adds console (getEntity net s id) client_messages.
Proof.
  assert (Hone : client_messages ["Error fetching Wikidata entity:"])
    by (constructor; [now right|constructor]).
  intros st. unfold getEntity.
  destruct (to_js_string id) as [key|]; [|now exists ["Error fetching Wikidata entity:"]].
  unfold bind, issue, console_error, ret. cbn.
  destruct (entity_answer net s key) as [data|]; cbn;
    [|now exists ["Error fetching Wikidata entity:"]].
  destruct (res_bind (get_prop data "entities") _); cbn.
  - exists []. split; [now rewrite app_nil_r|constructor].
  - now exists ["Error fetching Wikidata entity:"].
Qed.

Lemma assign_console h upd st : console (snd (assign h upd st)) = console st.
Proof.
  unfold assign. destruct h as [id|]; [|reflexivity].
  destruct (dom st id); reflexivity.
Qed.

Ltac logs :=
  repeat first
    [ apply logs_searchEntities | apply logs_getEntity
    | apply logs_quiet; intros ?; first [reflexivity | apply assign_console]
    | apply logs_bind; [ | intros ? ] ].

Lemma logs_detached f first (task : M unit) :
  Requests.adds console (detached f first task) client_messages.
Proof. apply logs_quiet. intros st. unfold detached. now destruct first. Qed.

Lemma logs_loadArtistData net this :
  Requests.adds console (loadArtistData net this) client_messages.
Proof.
  unfold loadArtistData.
  apply logs_bind; [apply logs_searchEntities|intros results].
  apply logs_bind; [logs|intros [hit|]].
  - apply logs_bind; [logs|intros id].
    apply logs_bind; [apply logs_getEntity|intros entity]. apply logs_detached.
  - unfold displayNoArtistData. logs.
Qed.

Lemma logs_loadWorkData net this :
  Requests.adds console (loadWorkData net this) client_messages.
Proof.
  unfold loadWorkData.
  apply logs_bind; [apply logs_searchEntities|intros results].
  apply logs_bind; [logs|intros [hit|]].
  - apply logs_bind; [logs|intros id].
    apply logs_bind; [apply logs_getEntity|intros entity].
    apply logs_bind; [apply logs_detached|intros _]. logs.
  - unfold displayNoWorkData. logs.
Qed.

(** X14. On a page that has all eight elements, when both search replies
    are failures or lists whose first hit is not [null], and the id of the
    first work hit can be written into the address of the link, [init] does
    not enter its [catch], whatever the entity endpoint answers (all
    lookups may fail): it ends normally, the console gets the failures of
    the endpoints and no 'Error initializing app:', and the last two
    assignments are those that hide the spinner and show the content: the
    error panel is not assigned. *)
Theorem init_without_error_panel (net : network) (this : app) (st : state)
    (sp ct t a y : element) :
  dom st "loadingSpinner" = Some sp ->
  dom st "projectContent" = Some ct ->
  dom st "projectTitle" = Some t ->
  dom st "projectArtist" = Some a ->
  dom st "projectYear" = Some y ->
  dom st "artistWikidata" <> None ->
  dom st "workWikidata" <> None ->
  dom st "viewOnWikidata" <> None ->
  usable (search_answer net (SearchSite Artist) (artistName this)) ->
  usable (search_answer net (SearchSite Work)
            (workName this ++ " " ++ artistName this)%string) ->
  addressable (search_answer net (SearchSite Work)
                 (workName this ++ " " ++ artistName this)%string) ->
  let out := init net this st in
  fst out = Ok tt
  /\ (exists logged,
        console (snd out) = console st ++ logged
        /\ ~ In "Error initializing app:" logged)
  /\ (exists before,
        written (snd out) = written st ++ before ++ ["loadingSpinner"; "projectContent"])
  /\ option_map display (dom (snd out) "projectContent") = Some "block".
Proof.
  intros Hs Hc Ht Ha Hy Hac Hwc Hl Hua Huw Haw. cbv zeta.
  rewrite (init_with_header net this st sp ct t a y Hs Hc Ht Ha Hy).
  set (s0 := headed this t a y (loading sp ct st)).
  assert (D0 : forall k, String.eqb k "projectYear" = false ->
                         String.eqb k "projectArtist" = false ->
                         String.eqb k "projectTitle" = false ->
                         String.eqb k "projectContent" = false ->
                         String.eqb k "loadingSpinner" = false ->
                         dom s0 k = dom st k).
  { intros k H1 H2 H3 H4 H5. unfold s0. rewrite headed_elsewhere by assumption.
    unfold loading. now rewrite !dom_with_element_other by assumption. }
  assert (Pa : fst (loadArtistData net this s0) = Ok tt).
  { apply loadArtistData_passes; [exact Hua|]. now rewrite D0 by reflexivity. }
  assert (Pw : fst (loadWorkData net this (snd (loadArtistData net this s0))) = Ok tt).
  { destruct (Late.loadArtistData_touches net this s0) as [Ta _].
    apply loadWorkData_passes; [exact Huw|exact Haw| |];
      rewrite Ta by (cbn; intuition discriminate); now rewrite D0 by reflexivity. }
  rewrite (load_both_passes net this s0 (set_display "block" sp) (set_display "none" ct)).
  - cbn [fst snd]. split; [reflexivity|].
    destruct (logs_loadArtistData net this s0) as (la & La & Fa).
    destruct (logs_loadWorkData net this (snd (loadArtistData net this s0)))
      as (lw & Lw & Fw).
    destruct (Late.loadArtistData_within net this s0) as ((wa & Wa & _) & _).
    destruct (Late.loadWorkData_within net this (snd (loadArtistData net this s0)))
      as ((ww & Ww & _) & _).
    split; [|split].
    + exists (la ++ lw). split.
      * unfold revealed. cbn [console Kept.with_element]. rewrite Lw, La.
        unfold s0. cbn. now rewrite app_assoc.
      * intros Hin. apply in_app_or in Hin.
        assert (Hno : forall l, client_messages l -> ~ In "Error initializing app:" l).
        { intros l Hall Hi. unfold client_messages in Hall.
          rewrite Forall_forall in Hall. destruct (Hall _ Hi); discriminate. }
        destruct Hin as [Hin | Hin]; [exact (Hno _ Fa Hin)|exact (Hno _ Fw Hin)].
    + exists (["loadingSpinner"; "projectContent"; "projectTitle"; "projectArtist";
               "projectYear"] ++ wa ++ ww).
      unfold revealed. cbn [written Kept.with_element]. rewrite Ww, Wa.
      unfold s0. cbn. repeat rewrite <- app_assoc. reflexivity.
    + now rewrite revealed_content.
  - unfold s0. rewrite headed_elsewhere by reflexivity. apply loading_spinner.
  - unfold s0. rewrite headed_elsewhere by reflexivity. apply loading_content.
  - exact Pa.
  - exact Pw.
Qed.

Lemma write_elsewhere id upd st k :
  k <> id ->
  dom (snd (bind (getElementById id) (fun h => assign h upd) st)) k = dom st k.
Proof.
  intros Hk. unfold bind, getElementById.
  apply Flows.assign_elsewhere. destruct (dom st id); congruence.
Qed.

(** X15. The link to the entity page.  When the work search has a first
    hit whose id can be written into an address, [loadWorkData] ends
    normally with the link pointing to the page of that hit and enabled,
    whether or not the entity could be fetched and rendered; when the id
    cannot be written, [loadWorkData] rejects and the link is as it was;
    when the search gives no hit, the link is as it was. *)
Theorem loadWorkData_link (net : network) (this : app) (st : state) :
  (forall hit more id key link,
     search_answer net (SearchSite Work) (workName this ++ " " ++ artistName this)%string
     = SearchList (hit :: more) ->
     get_prop hit "id" = Ok id ->
     to_js_string id = Ok key ->
     dom st "viewOnWikidata" = Some link ->
     fst (loadWorkData net this st) = Ok tt
     /\ dom (snd (loadWorkData net this st)) "viewOnWikidata"
        = Some (set_disabled false
                  (set_href ("https://www.wikidata.org/wiki/" ++ key)%string link)))
  /\ (forall hit more id e,
        search_answer net (SearchSite Work) (workName this ++ " " ++ artistName this)%string
        = SearchList (hit :: more) ->
        get_prop hit "id" = Ok id ->
        to_js_string id = Throw e ->
        fst (loadWorkData net this st) = Throw e
        /\ dom (snd (loadWorkData net this st)) "viewOnWikidata" = dom st "viewOnWikidata")
  /\ (search_answer net (SearchSite Work) (workName this ++ " " ++ artistName this)%string
      = SearchFailed
      \/ search_answer net (SearchSite Work) (workName this ++ " " ++ artistName this)%string
         = SearchList [] ->
      dom (snd (loadWorkData net this st)) "viewOnWikidata" = dom st "viewOnWikidata").
Proof.
  split; [|split].
  - intros hit more id key link Hs Hid Hk Hl.
    destruct (loadWorkData_hit net this st hit more id Hs Hid) as (s2 & D2 & ->).
    rewrite (enable_link_run hit id key link); [|now rewrite D2|exact Hid|exact Hk].
    split; [reflexivity|]. cbn [snd]. apply dom_with_element_same.
  - intros hit more id e Hs Hid Hk.
    destruct (loadWorkData_hit net this st hit more id Hs Hid) as (s2 & D2 & ->).
    rewrite (enable_link_throws hit id e s2 Hid Hk). cbn [fst snd].
    split; [reflexivity|now rewrite D2].
  - intros Hs.
    assert (E : exists s0,
               dom s0 = dom st
               /\ loadWorkData net this st = displayNoWorkData this s0).
    { unfold loadWorkData. unfold bind at 1. destruct Hs as [Hs | Hs].
      - rewrite (searchEntities_failed _ _ _ _ Hs). eexists. split; [|reflexivity].
        reflexivity.
      - rewrite (ClientFacts.searchEntities_list _ _ _ _ _ Hs).
        eexists. split; [|reflexivity]. reflexivity. }
    destruct E as (s0 & Hd & ->). unfold displayNoWorkData.
    rewrite write_elsewhere by discriminate. now rewrite Hd.
Qed.

End InitFacts.

Module DisplayFacts.
Import WikidataAPI Client ProjectDetailApp.
#[local] Open Scope list_scope.

Lemma get_prop_truthy v k : truthy v = true -> exists x, get_prop v k = Ok x.
Proof.
  intros H. apply InitFacts.get_prop_defined; intros ->; discriminate H.
Qed.

Lemma getLabel_of_object fields language :
  exists v, getLabel (VObj fields) language = Ok v.
Proof.
  unfold getLabel. cbn [get_prop res_bind].
  destruct (truthy _) eqn:T; [|eauto].
  destruct (get_prop_truthy _ language T) as (l & ->). cbn [res_bind].
  destruct (truthy l) eqn:Tl; [|eauto].
  apply get_prop_truthy. exact Tl.
Qed.

Lemma getDescription_of_object fields language :
  exists v, getDescription (VObj fields) language = Ok v.
Proof.
  unfold getDescription. cbn [get_prop res_bind].
  destruct (truthy _) eqn:T; [|eauto].
  destruct (get_prop_truthy _ language T) as (l & ->). cbn [res_bind].
  destruct (truthy l) eqn:Tl; [|eauto].
  apply get_prop_truthy. exact Tl.
Qed.

Lemma field_value_no_claims net f field fields propertyId st :
  lookup "claims" fields = None ->
  field_value net f field (VObj fields) propertyId st
  = (Ok (VStr "Non specificato"), st).
Proof.
  intros H. unfold field_value, bind.
  rewrite (getPropertyValue_no_property net _ fields propertyId default_language st
             (or_introl H)).
  reflexivity.
Qed.

Lemma field_date_no_claims net f field fields propertyId st :
  lookup "claims" fields = None ->
  field_date net f field (VObj fields) propertyId st
  = (Ok (VStr "Non specificato"), st).
Proof.
  intros H. unfold field_date, bind.
  rewrite (getPropertyValue_no_property net _ fields propertyId default_language st
             (or_introl H)).
  reflexivity.
Qed.

(** X16. An entity document without claims is displayed in full and
    without any request: the display data have every entry, with the label
    and the description that [getLabel] and [getDescription] give and 'Non
    specificato' for each property, the date included. *)
Theorem display_data_without_claims (net : network) (st : state)
    (fields : list (string * value)) :
  lookup "claims" fields = None ->
  exists label description,
    getLabel (VObj fields) "it" = Ok label
    /\ getDescription (VObj fields) "it" = Ok description
    /\ artist_data net (VObj fields) st
       = (Ok [("Nome", label); ("Descrizione", description);
              ("Data di nascita", VStr "Non specificato");
              ("Luogo di nascita", VStr "Non specificato");
              ("Nazionalità", VStr "Non specificato");
              ("Movimento artistico", VStr "Non specificato")], st)
    /\ work_data net (VObj fields) st
       = (Ok [("Titolo", label); ("Descrizione", description);
              ("Data di creazione", VStr "Non specificato");
              ("Tecnica", VStr "Non specificato");
              ("Materiale", VStr "Non specificato");
              ("Dimensioni", VStr "Non specificato");
              ("Genere", VStr "Non specificato")], st).
Proof.
  intros H.
  destruct (getLabel_of_object fields "it") as (label & Hl).
  destruct (getDescription_of_object fields "it") as (description & Hd).
  exists label, description. split; [exact Hl|]. split; [exact Hd|].
  unfold artist_data, work_data, default_language.
  split; unfold bind at 1, lift; rewrite Hl; unfold bind at 1; rewrite Hd;
    unfold bind at 1; rewrite (field_date_no_claims _ _ _ _ _ _ H);
    repeat (unfold bind at 1; rewrite (field_value_no_claims _ _ _ _ _ _ H));
    reflexivity.
Qed.

(** X17. A property whose claim list is empty: the list is truthy, its
    first entry is [undefined], and reading [mainsnak] from it throws.  The
    same happens when the first claim has no [mainsnak].  Nothing is asked
    of the network. *)
Theorem getPropertyValue_empty_claim_list (net : network) (s : site) (st : state)
    (fields claims : list (string * value)) (propertyId language : string) :
  lookup "claims" fields = Some (VObj claims) ->
  (lookup propertyId claims = Some (VArr []) ->
   getPropertyValue net s (VObj fields) propertyId language st = (Throw TypeError, st))
  /\ (forall claim more,
        lookup propertyId claims = Some (VArr (VObj claim :: more)) ->
        lookup "mainsnak" claim = None ->
        getPropertyValue net s (VObj fields) propertyId language st
        = (Throw TypeError, st)).
Proof.
  intros Hc. split.
  - intros Hl. rewrite (getPropertyValue_first_claim _ _ _ _ _ _ _ Hc Hl). reflexivity.
  - intros claim more Hl Hm.
    rewrite (getPropertyValue_first_claim _ _ _ _ _ _ _ Hc Hl). cbn [nth].
    unfold value_of_claim, bind, lift. cbn. now rewrite Hm.
Qed.

End DisplayFacts.

(** * The further properties at sample inputs *)

Module MoreWitnesses.
Import WikidataAPI Client ProjectDetailApp Samples.
#[local] Open Scope list_scope.

(** The entity endpoint answers with an error document. *)
Definition net_error_body : network :=
  mkNetwork (fun _ _ => SearchList [])
            (fun _ _ => Some (VObj [("error", VStr "not found")])).

Definition garessio_fields : list (string * value) :=
  [("labels", VObj [("it", VObj [("language", VStr "it"); ("value", VStr "Garessio")])])].

(** A work with a title given as a string, a width given as a quantity and
    an empty list of genres. *)
Definition measured_fields : list (string * value) :=
  [("claims",
    VObj [("P1476", VArr [VObj [("mainsnak", VObj [("datavalue",
                                   VObj [("value", VStr "Albero")])])]]);
          ("P2049", VArr [VObj [("mainsnak", VObj [("datavalue",
                                   VObj [("value",
                                          VObj [("amount", VStr "+12");
                                                ("unit", VStr "1")])])])]]);
          ("P136", VArr [])])].

Definition page_without_year : page :=
  fun k => if String.eqb k "projectYear" then None else full_page k.

Definition empty_page : page := fun _ => None.

(** The entity endpoint answers with a body whose [entities] map holds
    nothing. *)
Definition net_no_entity : network :=
  mkNetwork (fun _ _ => SearchList [])
            (fun _ _ => Some (VObj [("entities", VObj [])])).

(** An id that cannot be written into an address. *)
Definition unwritable : value := VObj [("toString", VNum PosNum "1")].

Lemma getEntity_bodies_witness :
  getEntity net_birth_place (EntitySite Artist) (VStr "Q1") (start full_page)
  = (Ok penone, Kept.with_request (EntitySite Artist) (ReqEntity "Q1") (start full_page))
  /\ getEntity net_no_entity (EntitySite Artist) (VStr "Q1") (start full_page)
     = (Ok VUndef, Kept.with_request (EntitySite Artist) (ReqEntity "Q1") (start full_page))
  /\ getEntity net_no_entity (EntitySite Artist) (VStr "constructor") (start full_page)
     = (Ok VNative,
        Kept.with_request (EntitySite Artist) (ReqEntity "constructor") (start full_page))
  /\ getEntity net_error_body (EntitySite Artist) (VStr "Q1") (start full_page)
     = (Ok VNull,
        Failures.logged "Error fetching Wikidata entity:" (EntitySite Artist)
          (ReqEntity "Q1") (start full_page)).
Proof.
  split; [|split; [|split]].
  - apply (proj1 (ClientFacts.getEntity_bodies net_birth_place (EntitySite Artist)
                    (VStr "Q1") "Q1" (start full_page) [("entities", VObj [("Q1", penone)])]
                    eq_refl eq_refl) [("Q1", penone)] penone eq_refl eq_refl).
  - apply (proj1 (proj2 (ClientFacts.getEntity_bodies net_no_entity (EntitySite Artist)
                           (VStr "Q1") "Q1" (start full_page) [("entities", VObj [])]
                           eq_refl eq_refl)) [] eq_refl eq_refl).
  - apply (proj1 (proj2 (ClientFacts.getEntity_bodies net_no_entity (EntitySite Artist)
                           (VStr "constructor") "constructor" (start full_page)
                           [("entities", VObj [])] eq_refl eq_refl)) [] eq_refl eq_refl).
  - apply (proj2 (proj2 (ClientFacts.getEntity_bodies net_error_body (EntitySite Artist)
                           (VStr "Q1") "Q1" (start full_page) [("error", VStr "not found")]
                           eq_refl eq_refl)) eq_refl).
Defined.

Lemma getEntityLabelById_cases_witness :
  getEntityLabelById net_lost_entity (LabelSite Work "Tecnica") (VStr "Q287") "it"
    (start full_page)
  = (Ok (VStr "Q287"),
     Failures.logged "Error fetching Wikidata entity:" (LabelSite Work "Tecnica")
       (ReqEntity "Q287") (start full_page))
  /\ getEntityLabelById net_birth_place (LabelSite Artist "Luogo di nascita")
       (VStr "Q19484") "it" (start full_page)
     = (Ok (VStr "Garessio"),
        Kept.with_request (LabelSite Artist "Luogo di nascita") (ReqEntity "Q19484")
          (start full_page))
  /\ getEntityLabelById net_no_entity (LabelSite Work "Tecnica") (VStr "constructor") "it"
       (start full_page)
     = (Ok (VStr "Informazione non disponibile"),
        Kept.with_request (LabelSite Work "Tecnica") (ReqEntity "constructor")
          (start full_page))
  /\ getEntityLabelById net_birth_place (LabelSite Work "Tecnica") unwritable "it"
       (start full_page)
     = (Ok unwritable, Failures.noted "Error fetching Wikidata entity:" (start full_page)).
Proof.
  split; [|split; [|split]].
  - apply (proj1 (proj1 (ClientFacts.getEntityLabelById_cases net_lost_entity
                           (LabelSite Work "Tecnica") (VStr "Q287") "it" (start full_page))
                    "Q287" eq_refl) eq_refl).
  - apply (proj1 (proj2 (proj2 (proj1 (ClientFacts.getEntityLabelById_cases net_birth_place
                                         (LabelSite Artist "Luogo di nascita")
                                         (VStr "Q19484") "it" (start full_page))
                                  "Q19484" eq_refl)
                          [("entities", VObj [("Q19484", labelled "Garessio")])]
                          [("Q19484", labelled "Garessio")] eq_refl eq_refl))
             garessio_fields
             [("language", VStr "it"); ("value", VStr "Garessio")] eq_refl).
    eexists. split; reflexivity.
  - apply (proj1 (proj2 (proj1 (ClientFacts.getEntityLabelById_cases net_no_entity
                                  (LabelSite Work "Tecnica") (VStr "constructor") "it"
                                  (start full_page))
                           "constructor" eq_refl)
                    [("entities", VObj [])] [] eq_refl eq_refl) eq_refl).
  - apply (proj2 (ClientFacts.getEntityLabelById_cases net_birth_place
                    (LabelSite Work "Tecnica") unwritable "it" (start full_page))
             TypeError eq_refl).
Defined.

Lemma penone_birth_place :
  ClientFacts.first_value Witnesses.penone_fields "P19" (VObj [("id", VStr "Q19484")]).
Proof. do 5 eexists. repeat split; reflexivity. Defined.

Lemma getPropertyValue_entity_reference_witness :
  getPropertyValue net_birth_place (LabelSite Artist "Luogo di nascita") penone "P19" "it"
    (start full_page)
  = (Ok (Promised (VStr "Garessio")),
     Kept.with_request (LabelSite Artist "Luogo di nascita") (ReqEntity "Q19484")
       (start full_page)).
Proof.
  apply (ClientFacts.getPropertyValue_entity_reference net_birth_place
           (LabelSite Artist "Luogo di nascita") (start full_page)
           Witnesses.penone_fields [("id", VStr "Q19484")]
           [("entities", VObj [("Q19484", labelled "Garessio")])]
           [("Q19484", labelled "Garessio")] garessio_fields
           [("language", VStr "it"); ("value", VStr "Garessio")]
           "P19" "it" "Q19484" penone_birth_place eq_refl).
  - discriminate.
  - reflexivity.
  - reflexivity.
  - reflexivity.
  - eexists. split; reflexivity.
Defined.

Lemma getPropertyValue_plain_values_witness :
  getPropertyValue net_no_list (LabelSite Work "Titolo") (VObj measured_fields)
    "P1476" "it" (start full_page)
  = (Ok (Plain (VStr "Albero")), start full_page)
  /\ getPropertyValue net_no_list (LabelSite Work "Dimensioni") (VObj measured_fields)
       "P2049" "it" (start full_page)
     = (Ok (Plain (VStr "+12")), start full_page).
Proof.
  split.
  - apply (proj1 (ClientFacts.getPropertyValue_plain_values net_no_list
                    (LabelSite Work "Titolo") (start full_page) measured_fields
                    "P1476" "it" (VStr "Albero")
                    ltac:(do 5 eexists; repeat split; reflexivity)) "Albero" eq_refl).
  - apply (proj2 (ClientFacts.getPropertyValue_plain_values net_no_list
                    (LabelSite Work "Dimensioni") (start full_page) measured_fields
                    "P2049" "it" (VObj [("amount", VStr "+12"); ("unit", VStr "1")])
                    ltac:(do 5 eexists; repeat split; reflexivity))
             [("amount", VStr "+12"); ("unit", VStr "1")] eq_refl eq_refl).
Defined.

Lemma date_entry_witness :
  field_date net_no_list Artist "Data di nascita" penone "P570" (start full_page)
  = (Ok (VStr "Non specificato"), start full_page)
  /\ field_date net_no_list Artist "Data di nascita" penone "P569" (start full_page)
     = (Ok (VStr "1947"), start full_page)
  /\ fst (field_date net_no_list Artist "Data di nascita" penone "P19" (start full_page))
     = Throw TypeError.
Proof.
  split; [|split].
  - apply (proj1 (ClientFacts.date_entry net_no_list Artist "Data di nascita"
                    (start full_page) Witnesses.penone_fields "P570")).
    right. eexists. split; [reflexivity|split; reflexivity].
  - apply (proj1 (proj2 (ClientFacts.date_entry net_no_list Artist "Data di nascita"
                           (start full_page) Witnesses.penone_fields "P569"))
             [("time", VStr "+1947-04-03T00:00:00Z")] "+1947-04-03T00:00:00Z" "1947");
      try reflexivity.
    + do 5 eexists. repeat split; reflexivity.
    + exists "04", "03", "T00:00:00Z". repeat split; reflexivity.
  - apply (proj2 (proj2 (ClientFacts.date_entry net_no_list Artist "Data di nascita"
                           (start full_page) Witnesses.penone_fields "P19"))
             [("id", VStr "Q19484")] penone_birth_place eq_refl).
Defined.

Lemma formatWikidataDate_idempotent_witness :
  exists text,
    formatWikidataDate (VStr "+1962-00-00T00:00:00Z") = Ok (VStr text)
    /\ formatWikidataDate (VStr text) = Ok (VStr text).
Proof.
  apply (ClientFacts.formatWikidataDate_idempotent (VStr "+1962-00-00T00:00:00Z")).
  right. right. eexists. reflexivity.
Defined.

Lemma loadArtistData_lost_entity_witness :
  loadArtistData net_lost_entity (constructor []) (start full_page)
  = (Ok tt,
     mkState full_page "" ["Error fetching Wikidata entity:"]
       [(SearchSite Artist, ReqSearch "Giuseppe Penone" "it");
        (EntitySite Artist, ReqEntity "Q1")]
       [] [Artist] []).
Proof.
  apply (ClientFacts.loadArtistData_lost_entity net_lost_entity (constructor [])
           (start full_page) (hit "Q1") (VStr "Q1") "Q1" []); reflexivity.
Defined.

Lemma init_reveals_content_witness :
  fst (init net_lost_entity (constructor []) (start full_page)) = Ok tt
  /\ option_map display
       (dom (snd (init net_lost_entity (constructor []) (start full_page)))
          "loadingSpinner") = Some "none"
  /\ option_map display
       (dom (snd (init net_lost_entity (constructor []) (start full_page)))
          "projectContent") = Some "block".
Proof.
  apply (InitFacts.init_reveals_content net_lost_entity (constructor [])
           (start full_page)); discriminate.
Defined.

Lemma init_rejects_without_containers_witness :
  fst (init net_birth_place (constructor []) (start empty_page)) = Throw TypeError
  /\ requests (snd (init net_birth_place (constructor []) (start empty_page))) = [].
Proof.
  destruct (InitFacts.init_rejects_without_containers net_birth_place (constructor [])
              (start empty_page) (or_introl eq_refl)) as (H1 & H2 & _).
  split; [exact H1|exact H2].
Defined.

Lemma init_writes_header_witness :
  title (snd (init net_birth_place (constructor [("work", "Idee di pietra")])
                (start full_page)))
  = "Idee di pietra - Giuseppe Penone | Biennale Eco Archive"
  /\ exists after,
       written (snd (init net_birth_place (constructor [("work", "Idee di pietra")])
                       (start full_page)))
       = ["loadingSpinner"; "projectContent"; "projectTitle"; "projectArtist";
          "projectYear"] ++ after.
Proof.
  apply (InitFacts.init_writes_header net_birth_place
           (constructor [("work", "Idee di pietra")]) (start full_page)
           placeholder placeholder placeholder placeholder placeholder
           eq_refl eq_refl eq_refl eq_refl eq_refl).
Defined.

Lemma init_header_element_missing_witness :
  requests (snd (init net_birth_place (constructor []) (start page_without_year))) = []
  /\ option_map innerHTML
       (dom (snd (init net_birth_place (constructor []) (start page_without_year)))
          "projectContent") = Some error_html.
Proof.
  destruct (InitFacts.init_header_element_missing net_birth_place (constructor [])
              (start page_without_year)) as (_ & H2 & _ & H4).
  - discriminate.
  - discriminate.
  - right. right. reflexivity.
  - split; [exact H2|exact H4].
Defined.

Lemma init_artist_search_without_list_witness :
  requests (snd (init net_no_list (constructor []) (start full_page)))
  = [(SearchSite Artist, ReqSearch "Giuseppe Penone" "it")]
  /\ console (snd (init net_no_list (constructor []) (start full_page)))
     = ["Error initializing app:"].
Proof.
  destruct (InitFacts.init_artist_search_without_list net_no_list (constructor [])
              (start full_page) placeholder placeholder placeholder placeholder
              placeholder eq_refl eq_refl eq_refl eq_refl eq_refl eq_refl)
    as (_ & H2 & H3 & _).
  split; [exact H2|exact H3].
Defined.

Lemma init_without_error_panel_witness :
  fst (init net_birth_place (constructor []) (start full_page)) = Ok tt
  /\ (exists logged,
        console (snd (init net_birth_place (constructor []) (start full_page)))
        = [] ++ logged
        /\ ~ In "Error initializing app:" logged)
  /\ (exists before,
        written (snd (init net_birth_place (constructor []) (start full_page)))
        = [] ++ before ++ ["loadingSpinner"; "projectContent"])
  /\ option_map display
       (dom (snd (init net_birth_place (constructor []) (start full_page)))
          "projectContent") = Some "block".
Proof.
  apply (InitFacts.init_without_error_panel net_birth_place (constructor [])
           (start full_page) placeholder placeholder placeholder placeholder
           placeholder eq_refl eq_refl eq_refl eq_refl eq_refl).
  - discriminate.
  - discriminate.
  - discriminate.
  - exact I.
  - exact I.
  - intros id Hid. injection Hid as <-. exists "Q2". reflexivity.
Defined.

Lemma loadWorkData_link_witness :
  dom (snd (loadWorkData net_birth_place (constructor []) (start full_page)))
    "viewOnWikidata"
  = Some (set_disabled false (set_href "https://www.wikidata.org/wiki/Q2" placeholder))
  /\ fst (loadWorkData (mkNetwork (fun _ _ => SearchList [VObj [("id", unwritable)]])
                          (fun _ _ => None))
            (constructor []) (start full_page))
     = Throw TypeError
  /\ dom (snd (loadWorkData net_lost_entity (constructor []) (start full_page)))
       "viewOnWikidata"
     = Some placeholder.
Proof.
  destruct (InitFacts.loadWorkData_link net_birth_place (constructor [])
              (start full_page)) as (H1 & _ & _).
  destruct (InitFacts.loadWorkData_link
              (mkNetwork (fun _ _ => SearchList [VObj [("id", unwritable)]])
                 (fun _ _ => None))
              (constructor []) (start full_page)) as (_ & H2 & _).
  destruct (InitFacts.loadWorkData_link net_lost_entity (constructor [])
              (start full_page)) as (_ & _ & H3).
  split; [|split].
  - apply (H1 (hit "Q2") [] (VStr "Q2") "Q2" placeholder eq_refl eq_refl eq_refl eq_refl).
  - apply (H2 (VObj [("id", unwritable)]) [] unwritable TypeError eq_refl eq_refl eq_refl).
  - apply H3. right. reflexivity.
Defined.

Lemma display_data_without_claims_witness :
  exists label description,
    getLabel (labelled "Albero della Vita") "it" = Ok label
    /\ getDescription (labelled "Albero della Vita") "it" = Ok description
    /\ artist_data net_no_list (labelled "Albero della Vita") (start full_page)
       = (Ok [("Nome", label); ("Descrizione", description);
              ("Data di nascita", VStr "Non specificato");
              ("Luogo di nascita", VStr "Non specificato");
              ("Nazionalità", VStr "Non specificato");
              ("Movimento artistico", VStr "Non specificato")], start full_page)
    /\ work_data net_no_list (labelled "Albero della Vita") (start full_page)
       = (Ok [("Titolo", label); ("Descrizione", description);
              ("Data di creazione", VStr "Non specificato");
              ("Tecnica", VStr "Non specificato");
              ("Materiale", VStr "Non specificato");
              ("Dimensioni", VStr "Non specificato");
              ("Genere", VStr "Non specificato")], start full_page).
Proof.
  apply (DisplayFacts.display_data_without_claims net_no_list (start full_page)
           [("labels", VObj [("it", VObj [("language", VStr "it");
                                          ("value", VStr "Albero della Vita")])])]).
  reflexivity.
Defined.

Lemma getPropertyValue_empty_claim_list_witness :
  getPropertyValue net_no_list (LabelSite Work "Genere") (VObj measured_fields)
    "P136" "it" (start full_page)
  = (Throw TypeError, start full_page).
Proof.
  apply (proj1 (DisplayFacts.getPropertyValue_empty_claim_list net_no_list
                  (LabelSite Work "Genere") (start full_page) measured_fields
                  (match lookup "claims" measured_fields with
                   | Some (VObj claims) => claims
                   | _ => []
                   end) "P136" "it" eq_refl)).
  reflexivity.
Defined.

End MoreWitnesses.
